(** * Sistema de Recomendação Contoso: the recommendation core of [src/app.py]

    The three functions of the collaborative-filtering core are embedded here:

    - [criar_matriz_interacao]  (app.py, lines 81-89): [DataFrame.pivot_table];
    - [calcular_similaridades]  (app.py, lines 92-100): scikit-learn's
      [cosine_similarity] wrapped in a labelled frame;
    - [obter_recomendacoes]     (app.py, lines 103-137): neighbour ranking,
      candidate aggregation and final ordering.

    Of [main] (app.py, lines 140-402) it embeds what decides the result: the
    chain of the three calls, the lookup of the customer chosen in the
    sidebar and the slice of the recommendations shown.

    Numbers.  Quantities and the similarity scores read by
    [obter_recomendacoes] are only compared, selected and (for the pivot)
    averaged, so they are rationals [Q]: every finite binary64 value is a
    rational and the comparisons agree.  [cosine_similarity] divides and takes
    square roots in binary64: it runs on Rocq's primitive floats ([f64]).

    Three things the libraries leave open are parameters of the model and
    not choices of it: the order numpy's default (quick)sort gives to equal
    values, the order in which CPython iterates a [set], and the order in
    which the BLAS and einsum kernels add up the products of an inner
    product. *)

From Stdlib Require Import List ZArith QArith Qabs Floats Lia Bool.
From Stdlib Require Import Permutation Sorted.
From Stdlib Require String.
Import ListNotations.

Close Scope Q_scope.
Open Scope Z_scope.

(** ** Python values: exceptions, slices, [max], [sorted] *)

(** The exceptions the three functions can raise: the [KeyError] of a label
    lookup ([.loc[...]], [frame[...]]) and the [ValueError] of scikit-learn's
    input validation. *)
Inductive exn : Type :=
| KeyError (label : Z)
| ValueError.

Inductive outcome (A : Type) : Type :=
| Returns (a : A)
| Raises (e : exn).
Arguments Returns {A} a.
Arguments Raises {A} e.

Definition bind {A B : Type} (c : outcome A) (k : A -> outcome B) : outcome B :=
  match c with
  | Returns a => k a
  | Raises e => Raises e
  end.

Notation "x <- c ;; k" := (bind c (fun x => k))
  (at level 61, c at next level, right associativity).

(** Customer and product keys ([CustomerKey], [ProductKey]) are integers. *)
Abbreviation key := Z (only parsing).

Definition mem (k : key) (l : list key) : bool := existsb (Z.eqb k) l.

Definition Qltb (x y : Q) : bool := negb (Qle_bool y x).

(** [l[start:stop]]: a negative bound counts from the end, and both bounds
    are clipped to the length. *)
Definition slice_bound (n i : Z) : Z :=
  if (i <? 0)%Z then Z.max 0 (i + n) else Z.min i n.

Definition py_slice {A : Type} (start stop : Z) (l : list A) : list A :=
  let n := Z.of_nat (length l) in
  let a := slice_bound n start in
  let b := slice_bound n stop in
  firstn (Z.to_nat (b - a)) (skipn (Z.to_nat a) l).

(** [max(a, b)]: [b] replaces [a] only when [b > a]. *)
Definition py_max (a b : Q) : Q := if Qltb a b then b else a.

(** A stable ascending sort by key: [x] goes before the first element whose
    key is not smaller, so elements with equal keys keep their order. *)
Fixpoint insert_by {A : Type} (f : A -> Q) (x : A) (l : list A) : list A :=
  match l with
  | [] => [x]
  | y :: r => if Qle_bool (f x) (f y) then x :: l else y :: insert_by f x r
  end.

Definition stable_sort {A : Type} (f : A -> Q) (l : list A) : list A :=
  fold_right (insert_by f) [] l.

(** [sorted(l, key=f, reverse=True)]: CPython reverses the list, sorts it
    (stably) and reverses the result, so equal keys keep their original
    order. *)
Definition py_sorted_reverse {A : Type} (f : A -> Q) (l : list A) : list A :=
  rev (stable_sort f (rev l)).

(** ** pandas objects *)

(** A [Series]: labelled values, in order. *)
Definition Series (A : Type) : Type := list (key * A).

(** A [DataFrame]: row labels, column labels and the value at each pair of
    labels (a label determines its row and its column, as in every frame
    the program builds). *)
Record DataFrame (A : Type) : Type := {
  index : list key;
  columns : list key;
  cell : key -> key -> A
}.
Arguments index {A} d.
Arguments columns {A} d.
Arguments cell {A} d r c.

(** [df.loc[r]]: the row labelled [r], a Series over the columns. *)
Definition loc {A : Type} (df : DataFrame A) (r : key) : outcome (Series A) :=
  if mem r (index df)
  then Returns (map (fun c => (c, cell df r c)) (columns df))
  else Raises (KeyError r).

(** [df[c]]: the column labelled [c], a Series over the index. *)
Definition getitem {A : Type} (df : DataFrame A) (c : key) : outcome (Series A) :=
  if mem c (columns df)
  then Returns (map (fun r => (r, cell df r c)) (index df))
  else Raises (KeyError c).

(** [s[s > 0].index]: the labels whose value is positive. *)
Definition positive_labels (s : Series Q) : list key :=
  map fst (filter (fun kv => Qltb 0%Q (snd kv)) s).

(** [df.values]: the rows as vectors. *)
Definition row_values {A : Type} (df : DataFrame A) (r : key) : list A :=
  map (fun c => cell df r c) (columns df).

Definition to_numpy {A : Type} (df : DataFrame A) : list (list A) :=
  map (row_values df) (index df).

Fixpoint position (k : key) (l : list key) : option nat :=
  match l with
  | [] => None
  | x :: r => if Z.eqb k x then Some O
              else match position k r with
                   | Some i => Some (S i)
                   | None => None
                   end
  end.

(** [pd.DataFrame(values, index=idx, columns=cols)]. *)
Definition frame_of_array {A : Type} (d : A) (values : list (list A))
    (idx cols : list key) : DataFrame A :=
  {| index := idx;
     columns := cols;
     cell := fun r c =>
       match position r idx, position c cols with
       | Some i, Some j => nth j (nth i values []) d
       | _, _ => d
       end |}.

(** *** [pivot_table(index=, columns=, values=, fill_value=0)]

    The groups are the (index, column) pairs; the labels come out sorted and
    without repetition; [aggfunc] is left at its default, the mean. *)
Record Venda : Type := {
  CustomerKey : key;
  ProductKey : key;
  TotalQtd : Q
}.

Fixpoint insert_key (k : key) (l : list key) : list key :=
  match l with
  | [] => [k]
  | x :: r =>
      match (k ?= x)%Z with
      | Lt => k :: l
      | Eq => l
      | Gt => x :: insert_key k r
      end
  end.

Definition sorted_unique (l : list key) : list key :=
  fold_right insert_key [] l.

Definition group (df : list Venda) (c p : key) : list Q :=
  map TotalQtd
    (filter (fun v => Z.eqb (CustomerKey v) c && Z.eqb (ProductKey v) p) df).

Definition Qsum (l : list Q) : Q := fold_right Qplus 0%Q l.

(** The mean of a group, taken exactly.  pandas computes it in binary64:
    on whole quantities whose total stays within 2^53 the sum is exact and
    the cell is this mean rounded once, by the division.  The exact mean
    stands for it where only its sign, its bounds, or its value when that
    is a whole number are used. *)
Definition mean (l : list Q) : Q :=
  (Qsum l / inject_Z (Z.of_nat (length l)))%Q.


Definition pivot_table (df : list Venda) (fill_value : Q) : DataFrame Q :=
  {| index := sorted_unique (map CustomerKey df);
     columns := sorted_unique (map ProductKey df);
     cell := fun c p =>
       match group df c p with
       | [] => fill_value
       | qs => mean qs
       end |}.

(** ** scikit-learn: [cosine_similarity] *)

(** The inner product as a plain loop computes it: the products are added
    up from the left, each product and each sum rounded on its own. *)
Definition dot {A : Type} (add mul : A -> A -> A) (zero : A) (u v : list A) : A :=
  fold_left (fun acc xy => add acc (mul (fst xy) (snd xy))) (combine u v) zero.

(** What [cosine_similarity] computes with: the arithmetic of the array's
    element type and the two kernels numpy hands the inner products to,
    whose order of summation (and use of fused multiply-add) belongs to the
    platform:
    - [sumsq]: [np.einsum('ij,ij->i', X, X)] on one row, the squared norm;
    - [inner i j u v]: the entry at row [i] and column [j], for [i <= j], of
      [X @ X.T], as the BLAS routine behind the product computes it from
      rows [u] and [v]. *)
Record Arith (A : Type) : Type := {
  zero : A;
  one : A;
  add : A -> A -> A;
  mul : A -> A -> A;
  div : A -> A -> A;
  sqrt : A -> A;
  negligible : A -> bool;
  is_finite : A -> bool;
  sumsq : list A -> A;
  inner : nat -> nat -> list A -> list A -> A
}.
Arguments zero {A} a.
Arguments one {A} a.
Arguments add {A} a _ _.
Arguments mul {A} a _ _.
Arguments div {A} a _ _.
Arguments sqrt {A} a _.
Arguments negligible {A} a _.
Arguments is_finite {A} a _.
Arguments sumsq {A} a _.
Arguments inner {A} a _ _ _ _.

Section Cosine.
Context {A : Type} (ar : Arith A).

(** [_handle_zeros_in_scale]: a norm below [10 * eps] (a zero norm above
    all) is replaced by one, so that an all-zero row is left as it is instead
    of being divided by zero.  (Releases of scikit-learn before 1.0 replace
    only a norm equal to zero; the norm of a row that holds a non-zero count
    is at least 1, so on counts the two agree.) *)
Definition handle_zeros (n : A) : A :=
  if negligible ar n then one ar else n.

(** [normalize(X)] on one row: [row_norms] takes the square root of the
    squared norm, and the row is divided by it. *)
Definition normalize_row (r : list A) : list A :=
  let n := handle_zeros (sqrt ar (sumsq ar r)) in
  map (fun x => div ar x n) r.

(** [check_array]: at least one sample and one feature, no NaN or
    infinity. *)
Definition check_array (X : list (list A)) : outcome (list (list A)) :=
  match X with
  | [] => Raises ValueError
  | r :: _ =>
      match r with
      | [] => Raises ValueError
      | _ :: _ =>
          if forallb (forallb (is_finite ar)) X then Returns X
          else Raises ValueError
      end
  end.

(** [Xn @ Xn.T]: numpy recognises the product of a matrix by its own
    transpose and calls syrk, which computes the entries on and above the
    diagonal; numpy then copies them below it. *)
Definition gram (Xn : list (list A)) : list (list A) :=
  let rows := combine (seq 0 (length Xn)) Xn in
  map (fun iu =>
         map (fun jv =>
                if (fst iu <=? fst jv)%nat
                then inner ar (fst iu) (fst jv) (snd iu) (snd jv)
                else inner ar (fst jv) (fst iu) (snd jv) (snd iu))
             rows)
      rows.

(** [cosine_similarity(X)]: normalise the rows, then [Xn @ Xn.T]. *)
Definition cosine_similarity (X : list (list A)) : outcome (list (list A)) :=
  X' <- check_array X ;;
  let Xn := map normalize_row X' in
  Returns (gram Xn).
End Cosine.

(** [np.finfo(np.float64).eps], that is 2^-52. *)
Definition eps64 : float := 0x1p-52%float.

(** binary64, as the program computes, on the reference platform: both
    kernels are the plain loop. *)
Definition f64 : Arith float :=
  {| zero := 0%float;
     one := 1%float;
     add := PrimFloat.add;
     mul := PrimFloat.mul;
     div := PrimFloat.div;
     sqrt := PrimFloat.sqrt;
     negligible := fun x => PrimFloat.ltb x (10 * eps64)%float;
     is_finite := PrimFloat.is_finite;
     sumsq := fun r => dot PrimFloat.add PrimFloat.mul 0%float r r;
     inner := fun _ _ u v => dot PrimFloat.add PrimFloat.mul 0%float u v |}.

(** *** Between the rationals and binary64

    The frames of [obter_recomendacoes] hold rationals and [f64] runs on
    floats: a quantity is read as the nearest binary64 value, and a finite
    binary64 value is the rational it denotes. *)
Definition float_of_Z (z : Z) : float :=
  SF2Prim (binary_normalize prec emax z 0 false).

Definition float_of_Q (q : Q) : float :=
  (float_of_Z (Qnum q) / float_of_Z (Zpos (Qden q)))%float.

Definition Q_of_float (x : float) : Q :=
  match Prim2SF x with
  | S754_finite s m e =>
      let z := if s then Zneg m else Zpos m in
      Qred (if e <? 0 then z # Pos.pow 2 (Z.to_pos (- e))
            else inject_Z (z * 2 ^ e))
  | _ => 0%Q
  end.

(** [df.astype(...)], cell by cell. *)
Definition astype {A B : Type} (f : A -> B) (df : DataFrame A) : DataFrame B :=
  {| index := index df;
     columns := columns df;
     cell := fun r c => f (cell df r c) |}.

(** ** The program: [src/app.py] *)

(** [criar_matriz_interacao] (lines 81-89). *)
Definition criar_matriz_interacao (df_vendas : list Venda) : outcome (DataFrame Q) :=
  let matriz := pivot_table df_vendas 0%Q in
  Returns matriz.

(** [calcular_similaridades] (lines 92-100). *)
Definition calcular_similaridades {A : Type} (ar : Arith A) (matriz : DataFrame A)
    : outcome (DataFrame A) :=
  similaridade <- cosine_similarity ar (to_numpy matriz) ;;
  let df_similaridade :=
    frame_of_array (zero ar) similaridade (index matriz) (index matriz) in
  Returns df_similaridade.

(** The value of [recomendacoes[produto]]: the ['score'] and the
    ['vizinhos'] list. *)
Record Rec : Type := {
  score : Q;
  vizinhos : list key
}.

(** [recomendacoes]: a [dict], which keeps its keys in insertion order. *)
Definition dict : Type := list (key * Rec).

Fixpoint dict_get (p : key) (d : dict) : option Rec :=
  match d with
  | [] => None
  | (k, r) :: t => if Z.eqb p k then Some r else dict_get p t
  end.

(** Changing the value stored under [p] leaves its place in the order. *)
Fixpoint dict_update (p : key) (f : Rec -> Rec) (d : dict) : dict :=
  match d with
  | [] => []
  | (k, r) :: t =>
      if Z.eqb p k then (k, f r) :: t else (k, r) :: dict_update p f t
  end.

(** The body of the inner loop (lines 120-128). *)
Definition registrar (vizinho_id : key) (similaridade_score : Q)
    (recomendacoes : dict) (produto : key) : dict :=
  match dict_get produto recomendacoes with
  | None =>
      recomendacoes ++
        [(produto, {| score := similaridade_score; vizinhos := [vizinho_id] |})]
  | Some _ =>
      dict_update produto
        (fun r => {| score := py_max (score r) similaridade_score;
                     vizinhos := vizinhos r ++ [vizinho_id] |})
        recomendacoes
  end.

Section Plataforma.
(** numpy's sort, as pandas calls it: the series reordered by ascending
    value; where it puts equal values is the kernel's business. *)
Variable argsort_kernel : Series Q -> Series Q.
(** CPython's iteration order of [set(l)] and of a set difference. *)
Variable iter_set : list key -> list key.
Variable iter_diff : list key -> list key.

(** [s.sort_values(ascending=False)]: pandas reverses the values, sorts
    them ascending and reverses the outcome. *)
Definition sort_values_desc (s : Series Q) : Series Q :=
  rev (argsort_kernel (rev s)).

(** [set(matriz.loc[c][matriz.loc[c] > 0].index)] (lines 107 and 116). *)
Definition produtos_de (matriz : DataFrame Q) (c : key) : outcome (list key) :=
  linha <- loc matriz c ;;
  Returns (iter_set (nodup Z.eq_dec (positive_labels linha))).

(** The outer loop (lines 115-128), from the dictionary built so far. *)
Fixpoint coletar (matriz : DataFrame Q) (produtos_comprados : list key)
    (similares : Series Q) (recomendacoes : dict) : outcome dict :=
  match similares with
  | [] => Returns recomendacoes
  | (vizinho_id, similaridade_score) :: resto =>
      produtos_vizinho <- produtos_de matriz vizinho_id ;;
      let produtos_novos :=
        iter_diff
          (filter (fun p => negb (mem p produtos_comprados)) produtos_vizinho) in
      coletar matriz produtos_comprados resto
        (fold_left (registrar vizinho_id similaridade_score)
                   produtos_novos recomendacoes)
  end.

(** [obter_recomendacoes] (lines 103-137). *)
Definition obter_recomendacoes (cliente_id : key) (matriz : DataFrame Q)
    (df_similaridade : DataFrame Q) (n_vizinhos : Z)
    : outcome (list key * Series Q * dict) :=
  produtos_comprados <- produtos_de matriz cliente_id ;;
  coluna <- getitem df_similaridade cliente_id ;;
  let similares := py_slice 1 (n_vizinhos + 1) (sort_values_desc coluna) in
  recomendacoes <- coletar matriz produtos_comprados similares [] ;;
  let recomendacoes_ordenadas :=
    py_sorted_reverse (fun x => score (snd x)) recomendacoes in
  Returns (produtos_comprados, similares, recomendacoes_ordenadas).

(** The three calls as [main] chains them (lines 147, 150 and 202-204). *)
Definition main_core (df_vendas : list Venda) (cliente_id : key) (n_vizinhos : Z)
    : outcome (list key * Series Q * dict) :=
  matriz <- criar_matriz_interacao df_vendas ;;
  df_similaridade <- calcular_similaridades f64 (astype float_of_Q matriz) ;;
  obter_recomendacoes cliente_id matriz (astype Q_of_float df_similaridade)
                      n_vizinhos.
End Plataforma.

(** The reference platform: numpy's quicksort is an insertion sort on
    arrays of at most 16 elements, hence stable there; sets are iterated in
    the order of the labels they were built from. *)
Definition insertion_kernel (s : Series Q) : Series Q := stable_sort snd s.

Definition obter_recomendacoes_ref :=
  obter_recomendacoes insertion_kernel (fun l => l) (fun l => l).

Definition main_core_ref :=
  main_core insertion_kernel (fun l => l) (fun l => l).

(** ** Vocabulary of the statements *)

(** Customer [v] purchased product [p]: [p] is a column of the matrix and
    the quantity at [(v, p)] is positive. *)
Definition comprou (matriz : DataFrame Q) (v p : key) : bool :=
  mem p (columns matriz) && Qltb 0%Q (cell matriz v p).

(** What one pass of the inner loop does to the entry of a product. *)
Definition atualizar (vizinho_id : key) (similaridade_score : Q) (o : option Rec) : Rec :=
  match o with
  | None => {| score := similaridade_score; vizinhos := [vizinho_id] |}
  | Some r => {| score := py_max (score r) similaridade_score;
                 vizinhos := vizinhos r ++ [vizinho_id] |}
  end.

(** The neighbours of [similares] that contribute product [p]: they
    purchased it and the target did not. *)
Definition apoiadores (matriz : DataFrame Q) (produtos_comprados : list key)
    (p : key) (similares : Series Q) : Series Q :=
  filter (fun vs => comprou matriz (fst vs) p && negb (mem p produtos_comprados))
         similares.

(** The neighbours of [similares] that purchased product [p]. *)
Definition compradores (matriz : DataFrame Q) (p : key) (similares : Series Q)
    : Series Q :=
  filter (fun vs => comprou matriz (fst vs) p) similares.

(** The entry a list of supporters stands for. *)
Definition entrada (sup : Series Q) : option Rec :=
  match sup with
  | [] => None
  | (v, s) :: t =>
      Some {| score := fold_left py_max (map snd t) s;
              vizinhos := v :: map fst t |}
  end.

(** [df_similaridade] is a frame over the customers of [matriz], on both
    axes: the shape [calcular_similaridades] gives it (lines 95-99). *)
Definition similarity_frame_of {A B : Type} (matriz : DataFrame A)
    (df_similaridade : DataFrame B) : Prop :=
  index df_similaridade = index matriz /\
  columns df_similaridade = index matriz.

(** ** Concrete inputs used in the examples below *)

(** A frame written row by row; a label that is missing reads as [d]. *)
Definition frame_of_rows {A : Type} (d : A) (rows : list (key * list (key * A)))
    (cols : list key) : DataFrame A :=
  {| index := map fst rows;
     columns := cols;
     cell := fun r c =>
       match find (fun x => Z.eqb (fst x) r) rows with
       | Some (_, s) =>
           match find (fun x => Z.eqb (fst x) c) s with
           | Some (_, q) => q
           | None => d
           end
       | None => d
       end |}.


(** The similarity frame the program computes for a matrix, read as
    rationals (the empty frame if scikit-learn rejects the matrix). *)
Definition similaridade_de (matriz : DataFrame Q) : DataFrame Q :=
  match calcular_similaridades f64 (astype float_of_Q matriz) with
  | Returns df_similaridade => astype Q_of_float df_similaridade
  | Raises _ => frame_of_array 0%Q [] [] []
  end.

Definition venda (c p : key) (q : Q) : Venda :=
  {| CustomerKey := c; ProductKey := p; TotalQtd := q |}.

(** Customers 2 and 3 each bought product 1, which the target 1 bought too,
    and one product more: customer 2 product 5, customer 3 product 3.  Both
    are equally similar to the target. *)
Definition vendas_empate : list Venda :=
  [ venda 1 1 1%Q; venda 2 1 1%Q; venda 2 5 1%Q; venda 3 1 1%Q; venda 3 3 1%Q ].

Definition matriz_empate : DataFrame Q := pivot_table vendas_empate 0%Q.

(** 0.7071067811865475: the binary64 cosine of the target with customer 2
    and with customer 3. *)
Definition score_empate : Q := (1592262918131443 # 2251799813685248)%Q.

Definition similaridade_empate : DataFrame Q := similaridade_de matriz_empate.

(** The same table with the extra products of customers 2 and 3 exchanged. *)
Definition vendas_empate_troca : list Venda :=
  [ venda 1 1 1%Q; venda 2 1 1%Q; venda 2 3 1%Q; venda 3 1 1%Q; venda 3 5 1%Q ].

(** Two customers who bought the same single product, in quantities 1 and
    3: every cosine similarity is exactly 1, in binary64 too. *)
Definition vendas_iguais : list Venda :=
  [ venda 1 10 1%Q; venda 2 10 3%Q ].

Definition matriz_iguais : DataFrame Q := pivot_table vendas_iguais 0%Q.

Definition similaridade_iguais : DataFrame Q := similaridade_de matriz_iguais.

(** The scenario of the specification: customers A, B, C are 1, 2, 3 and
    products P1, P2, P3 are 1, 2, 3; A = {P1: 2}, B = {P1: 2, P2: 1},
    C = {P3: 3}. *)
Definition vendas_cenario : list Venda :=
  [ venda 1 1 2%Q; venda 2 1 2%Q; venda 2 2 1%Q; venda 3 3 3%Q ].


(** A similarity frame over customers 2 and 3 only: customer 1, a row of
    [matriz_empate], is not one of its columns. *)
Definition similaridade_sem_alvo : DataFrame Q :=
  frame_of_rows 0%Q
    [ (2, [(2, 1%Q); (3, (1 # 2)%Q)]); (3, [(2, (1 # 2)%Q); (3, 1%Q)]) ]
    [2; 3].

(** Product 30 has two supporters of different similarity: customer 1
    bought product 10; customer 2 bought 10 and 30; customer 3 bought 10,
    20 and 30. *)
Definition vendas_apoio : list Venda :=
  [ venda 1 10 1%Q;
    venda 2 10 1%Q; venda 2 30 1%Q;
    venda 3 10 1%Q; venda 3 20 1%Q; venda 3 30 1%Q ].

Definition matriz_apoio : DataFrame Q := pivot_table vendas_apoio 0%Q.

Definition similaridade_apoio : DataFrame Q :=
  frame_of_rows 0%Q
    [ (1, [(1, 1%Q); (2, (7 # 10)%Q); (3, (1 # 2)%Q)]);
      (2, [(1, (7 # 10)%Q); (2, 1%Q); (3, (4 # 5)%Q)]);
      (3, [(1, (1 # 2)%Q); (2, (4 # 5)%Q); (3, 1%Q)]) ]
    [1; 2; 3].

(** ** Vocabulary of the proofs about binary64 *)









(** ** [main]: the customer chosen in the sidebar, the recommendations shown *)

(** The rows of [df_clientes], as [carregar_dados] reads them
    (lines 67-76). *)
Module Clientes.
Record row : Type := {
  CustomerKey : key;
  nome_completo : String.string;
  EmailAddress : String.string;
  Gender : String.string
}.
End Clientes.

(** [a.values[0]] and [df.iloc[0]]: the first element; [None] stands for
    the [IndexError] Python raises on an empty selection. *)
Definition values_0 {A : Type} (a : list A) : option A :=
  match a with
  | [] => None
  | x :: _ => Some x
  end.

(** [df_clientes['nome_completo'].tolist()] (line 161): the options of the
    select box. *)
Definition clientes_disponiveis (df_clientes : list Clientes.row)
    : list String.string :=
  map Clientes.nome_completo df_clientes.

(** [cliente_id] (lines 169-172):
    [df_clientes.loc[df_clientes['nome_completo'] == cliente_selecionado,
    'CustomerKey'].values[0]]. *)
Definition main_cliente_id (df_clientes : list Clientes.row)
    (cliente_selecionado : String.string) : option key :=
  values_0
    (map Clientes.CustomerKey
       (filter (fun r => String.eqb (Clientes.nome_completo r) cliente_selecionado)
               df_clientes)).

(** [cliente_info] (line 194):
    [df_clientes[df_clientes['CustomerKey'] == cliente_id].iloc[0]]. *)
Definition main_cliente_info (df_clientes : list Clientes.row) (cliente_id : key)
    : option Clientes.row :=
  values_0 (filter (fun r => Z.eqb (Clientes.CustomerKey r) cliente_id) df_clientes).

(** [recomendacoes[:n_recomendacoes]] (line 241): the entries the loop of
    the recommendations tab goes through. *)
Definition main_recomendacoes_exibidas (recomendacoes : dict) (n_recomendacoes : Z)
    : dict :=
  py_slice 0 n_recomendacoes recomendacoes.

(** A customer table with two customers of the same name. *)
Module Nomes.
Import String.
Definition ana_lima : string := "Ana Lima"%string.
Definition rui_costa : string := "Rui Costa"%string.
Definition sem_email : string := EmptyString.
End Nomes.

Definition cliente (k : key) (nome : String.string) : Clientes.row :=
  {| Clientes.CustomerKey := k; Clientes.nome_completo := nome;
     Clientes.EmailAddress := Nomes.sem_email; Clientes.Gender := Nomes.sem_email |}.

Definition clientes_homonimos : list Clientes.row :=
  [ cliente 1 Nomes.ana_lima; cliente 2 Nomes.rui_costa; cliente 3 Nomes.ana_lima ].

(** * Properties *)

(** ** Booleans, membership, positions *)

Lemma mem_In (k : key) (l : list key) : mem k l = true <-> In k l.
Proof.
  unfold mem. rewrite existsb_exists. split.
  - intros [x [Hx He]]. apply Z.eqb_eq in He. now subst.
  - intro H. exists k. split; [assumption | apply Z.eqb_refl].
Qed.

Lemma mem_not_In (k : key) (l : list key) : mem k l = false <-> ~ In k l.
Proof.
  rewrite <- mem_In. destruct (mem k l); split; intro H; congruence.
Qed.

Lemma Qltb_lt (x y : Q) : Qltb x y = true <-> (x < y)%Q.
Proof.
  unfold Qltb. rewrite negb_true_iff. split.
  - intro H. apply Qnot_le_lt. intro Hle.
    apply Qle_bool_iff in Hle. congruence.
  - intro H. destruct (Qle_bool y x) eqn:E; [|reflexivity].
    apply Qle_bool_iff in E. elim (Qlt_not_le _ _ H E).
Qed.

Lemma Qle_bool_false (x y : Q) : Qle_bool x y = false -> (y <= x)%Q.
Proof.
  intro H. apply Qlt_le_weak, Qnot_le_lt. intro Hle.
  apply Qle_bool_iff in Hle. congruence.
Qed.

Lemma position_None (k : key) (l : list key) : position k l = None <-> ~ In k l.
Proof.
  induction l as [|x r IH]; simpl.
  - tauto.
  - destruct (Z.eqb_spec k x) as [->|Hne].
    + split; [discriminate | intro H; elim H; now left].
    + destruct (position k r).
      * split; [discriminate|]. intro H.
        assert (Hr : ~ In k r) by (intro Hin; apply H; now right).
        apply IH in Hr. discriminate.
      * split; [|reflexivity]. intros _ [He|Hin]; [congruence|].
        exact (proj1 IH eq_refl Hin).
Qed.

Lemma position_nth {B : Type} (f : key -> B) (d : B) (k : key) (l : list key) (i : nat) :
  position k l = Some i -> nth i (map f l) d = f k.
Proof.
  revert i. induction l as [|x r IH]; simpl; intros i H; [discriminate|].
  destruct (Z.eqb_spec k x) as [->|Hne].
  - now inversion H.
  - destruct (position k r) as [j|]; [|discriminate].
    inversion H. simpl. now apply IH.
Qed.

Lemma position_lt (k : key) (l : list key) (i : nat) :
  position k l = Some i -> (i < length l)%nat /\ nth i l 0 = k.
Proof.
  revert i. induction l as [|x r IH]; simpl; intros i H; [discriminate|].
  destruct (Z.eqb_spec k x) as [->|Hne].
  - inversion H. split; [lia | reflexivity].
  - destruct (position k r) as [j|]; [|discriminate].
    inversion H. simpl. destruct (IH j eq_refl) as [Hlt Hn]. split; [lia | exact Hn].
Qed.

(** ** Slices *)

Lemma In_firstn {A : Type} (n : nat) (l : list A) (x : A) :
  In x (firstn n l) -> In x l.
Proof.
  intro H. rewrite <- (firstn_skipn n l). apply in_or_app. now left.
Qed.

Lemma In_skipn {A : Type} (n : nat) (l : list A) (x : A) :
  In x (skipn n l) -> In x l.
Proof.
  intro H. rewrite <- (firstn_skipn n l). apply in_or_app. now right.
Qed.

Lemma py_slice_incl {A : Type} (a b : Z) (l : list A) : incl (py_slice a b l) l.
Proof.
  unfold py_slice. intros x Hx.
  apply In_firstn in Hx. now apply In_skipn in Hx.
Qed.

Lemma py_slice_1_1 {A : Type} (l : list A) : py_slice 1 (0 + 1) l = [].
Proof.
  unfold py_slice, slice_bound.
  replace (0 + 1)%Z with 1%Z by reflexivity.
  change (1 <? 0)%Z with false. cbv beta iota zeta.
  now rewrite Z.sub_diag.
Qed.

(** ** [criar_matriz_interacao] *)

Lemma insert_key_In (k x : key) (l : list key) :
  In x (insert_key k l) <-> x = k \/ In x l.
Proof.
  induction l as [|y r IH]; simpl.
  - intuition congruence.
  - destruct (Z.compare_spec k y) as [->|Hlt|Hgt]; simpl.
    + intuition congruence.
    + intuition congruence.
    + rewrite IH. intuition congruence.
Qed.

Lemma sorted_unique_In (x : key) (l : list key) : In x (sorted_unique l) <-> In x l.
Proof.
  induction l as [|y r IH]; simpl; [tauto|].
  rewrite insert_key_In, IH. intuition congruence.
Qed.

Lemma group_nonempty (df : list Venda) (c p : key) :
  group df c p <> [] <->
  exists v, In v df /\ CustomerKey v = c /\ ProductKey v = p.
Proof.
  unfold group. split.
  - intro H.
    destruct (filter _ df) as [|v t] eqn:E; [now elim H|].
    assert (Hin : In v (filter (fun v => Z.eqb (CustomerKey v) c && Z.eqb (ProductKey v) p) df))
      by (rewrite E; now left).
    apply filter_In in Hin. destruct Hin as [Hin Hb].
    apply andb_true_iff in Hb. destruct Hb as [H1 H2].
    apply Z.eqb_eq in H1, H2. now exists v.
  - intros [v [Hin [H1 H2]]] Hn.
    assert (Hf : In v (filter (fun v => Z.eqb (CustomerKey v) c && Z.eqb (ProductKey v) p) df)).
    { apply filter_In. split; [assumption|].
      apply andb_true_iff. split; apply Z.eqb_eq; assumption. }
    apply (in_map TotalQtd) in Hf. rewrite Hn in Hf. exact Hf.
Qed.

Lemma mean_times_length (qs : list Q) :
  qs <> [] -> (mean qs * inject_Z (Z.of_nat (length qs)) == Qsum qs)%Q.
Proof.
  intro H. unfold mean. rewrite Qmult_comm. apply Qmult_div_r.
  destruct qs as [|q t]; [now elim H|].
  unfold Qeq. simpl. lia.
Qed.





(** C4 (amended): [criar_matriz_interacao] has no emptiness check and raises
    nothing: it returns a matrix for every transaction sequence, and for the
    empty sequence the matrix has no row and no column. *)
Theorem criar_matriz_interacao_empty_matrix :
  (forall df_vendas, exists matriz, criar_matriz_interacao df_vendas = Returns matriz) /\
  (exists matriz,
     criar_matriz_interacao [] = Returns matriz /\
     index matriz = [] /\ columns matriz = []).
Proof.
  split.
  - intro df. eexists. reflexivity.
  - eexists. split; [reflexivity|]. split; reflexivity.
Qed.

(** C4, as stated, fails: on the empty sequence the builder returns a value
    and raises no error. *)
Lemma criar_matriz_interacao_empty_returns :
  (exists matriz, criar_matriz_interacao [] = Returns matriz) /\
  ~ (exists e, criar_matriz_interacao [] = Raises e).
Proof.
  split.
  - eexists. reflexivity.
  - intros [e H]. discriminate H.
Qed.

(** ** The stable sort and [sorted(..., reverse=True)] *)

Section StableSort.
Context {A : Type} (f : A -> Q).

Lemma insert_by_perm (x : A) (l : list A) : Permutation (x :: l) (insert_by f x l).
Proof.
  induction l as [|y r IH]; simpl.
  - apply Permutation_refl.
  - destruct (Qle_bool (f x) (f y)).
    + apply Permutation_refl.
    + eapply perm_trans; [apply perm_swap|]. now apply perm_skip.
Qed.

Lemma stable_sort_perm (l : list A) : Permutation l (stable_sort f l).
Proof.
  induction l as [|x r IH]; simpl.
  - apply perm_nil.
  - eapply perm_trans; [|apply insert_by_perm]. now apply perm_skip.
Qed.

Lemma insert_by_sorted (x : A) (l : list A) :
  Sorted (fun a b => (f a <= f b)%Q) l ->
  Sorted (fun a b => (f a <= f b)%Q) (insert_by f x l).
Proof.
  induction l as [|y r IH]; simpl; intro Hs.
  - repeat constructor.
  - destruct (Qle_bool (f x) (f y)) eqn:E.
    + constructor; [assumption|]. constructor. now apply Qle_bool_iff.
    + inversion Hs as [|? ? Hr Hhd]; subst.
      constructor; [now apply IH|].
      destruct r as [|z t]; simpl.
      * constructor. now apply Qle_bool_false.
      * destruct (Qle_bool (f x) (f z)).
        -- constructor. now apply Qle_bool_false.
        -- inversion Hhd; subst. now constructor.
Qed.

Lemma stable_sort_sorted (l : list A) :
  StronglySorted (fun a b => (f a <= f b)%Q) (stable_sort f l).
Proof.
  apply Sorted_StronglySorted.
  - intros a b c Hab Hbc. eapply Qle_trans; eassumption.
  - induction l as [|x r IH]; simpl; [constructor | now apply insert_by_sorted].
Qed.

(** Stability: the elements of any one key keep their relative order. *)
Lemma insert_by_filter (q : Q) (x : A) (l : list A) :
  filter (fun e => Qeq_bool (f e) q) (insert_by f x l) =
  filter (fun e => Qeq_bool (f e) q) (x :: l).
Proof.
  induction l as [|y r IH]; [reflexivity|].
  simpl insert_by. destruct (Qle_bool (f x) (f y)) eqn:E; [reflexivity|].
  simpl in *. rewrite IH.
  destruct (Qeq_bool (f x) q) eqn:Ex, (Qeq_bool (f y) q) eqn:Ey; try reflexivity.
  exfalso. apply Qeq_bool_iff in Ex, Ey.
  assert (Hle : (f x <= f y)%Q) by (rewrite Ex, Ey; apply Qle_refl).
  apply Qle_bool_iff in Hle. congruence.
Qed.

Lemma stable_sort_filter (q : Q) (l : list A) :
  filter (fun e => Qeq_bool (f e) q) (stable_sort f l) =
  filter (fun e => Qeq_bool (f e) q) l.
Proof.
  induction l as [|x r IH]; [reflexivity|].
  simpl stable_sort. rewrite insert_by_filter. simpl. now rewrite IH.
Qed.

Lemma StronglySorted_snoc (R : A -> A -> Prop) (l : list A) (a : A) :
  StronglySorted R l -> Forall (fun x => R x a) l -> StronglySorted R (l ++ [a]).
Proof.
  induction l as [|x r IH]; simpl; intros Hs Hf.
  - repeat constructor.
  - inversion Hs; subst. inversion Hf; subst.
    constructor; [now apply IH|].
    apply Forall_app. split; [assumption | now constructor].
Qed.

Lemma StronglySorted_rev (R : A -> A -> Prop) (l : list A) :
  StronglySorted R l -> StronglySorted (fun a b => R b a) (rev l).
Proof.
  induction 1 as [|a l Hs IH Hf]; simpl.
  - constructor.
  - apply StronglySorted_snoc; [assumption|].
    apply Forall_rev. assumption.
Qed.

Lemma py_sorted_reverse_perm (l : list A) : Permutation l (py_sorted_reverse f l).
Proof.
  unfold py_sorted_reverse.
  eapply perm_trans; [apply Permutation_rev|].
  eapply perm_trans; [apply stable_sort_perm|].
  apply Permutation_rev.
Qed.

Lemma py_sorted_reverse_descending (l : list A) :
  StronglySorted (fun a b => (f b <= f a)%Q) (py_sorted_reverse f l).
Proof.
  unfold py_sorted_reverse.
  apply (StronglySorted_rev (fun a b => (f a <= f b)%Q)).
  apply stable_sort_sorted.
Qed.

Lemma py_sorted_reverse_stable (q : Q) (l : list A) :
  filter (fun e => Qeq_bool (f e) q) (py_sorted_reverse f l) =
  filter (fun e => Qeq_bool (f e) q) l.
Proof.
  unfold py_sorted_reverse.
  rewrite filter_rev, stable_sort_filter, filter_rev. apply rev_involutive.
Qed.

End StableSort.

(** ** The dictionary [recomendacoes] *)

Lemma dict_get_None (p : key) (d : dict) : dict_get p d = None <-> ~ In p (map fst d).
Proof.
  induction d as [|[k r] t IH]; simpl.
  - tauto.
  - destruct (Z.eqb_spec p k) as [->|Hne].
    + split; [discriminate | intro H; elim H; now left].
    + rewrite IH. split.
      * intros H [He|Hin]; [congruence | contradiction].
      * intros H Hin. apply H. now right.
Qed.

Lemma dict_get_In (p : key) (r : Rec) (d : dict) : dict_get p d = Some r -> In (p, r) d.
Proof.
  induction d as [|[k r0] t IH]; simpl; [discriminate|].
  destruct (Z.eqb_spec p k) as [->|Hne]; intro H.
  - inversion H. now left.
  - right. now apply IH.
Qed.

Lemma In_dict_get (p : key) (r : Rec) (d : dict) :
  NoDup (map fst d) -> In (p, r) d -> dict_get p d = Some r.
Proof.
  induction d as [|[k r0] t IH]; simpl; intros Hnd Hin; [contradiction|].
  inversion Hnd as [|? ? Hk Ht]; subst.
  destruct Hin as [He|Hin].
  - inversion He; subst. now rewrite Z.eqb_refl.
  - destruct (Z.eqb_spec p k) as [->|Hne]; [|now apply IH].
    elim Hk. change k with (fst (k, r)). now apply in_map.
Qed.

Lemma dict_get_app (p : key) (d1 d2 : dict) :
  dict_get p (d1 ++ d2) =
  match dict_get p d1 with Some r => Some r | None => dict_get p d2 end.
Proof.
  induction d1 as [|[k r] t IH]; simpl; [reflexivity|].
  destruct (Z.eqb p k); [reflexivity | apply IH].
Qed.

Lemma dict_get_update (p q : key) (g : Rec -> Rec) (d : dict) :
  dict_get q (dict_update p g d) =
  if Z.eqb q p then option_map g (dict_get p d) else dict_get q d.
Proof.
  induction d as [|[k r] t IH]; simpl.
  - now destruct (Z.eqb q p).
  - destruct (Z.eqb_spec p k) as [->|Hpk]; simpl.
    + destruct (Z.eqb_spec q k) as [->|Hqk]; reflexivity.
    + destruct (Z.eqb_spec q k) as [->|Hqk].
      * destruct (Z.eqb_spec k p) as [Hkp|_]; [congruence | reflexivity].
      * apply IH.
Qed.

Lemma dict_update_keys (p : key) (g : Rec -> Rec) (d : dict) :
  map fst (dict_update p g d) = map fst d.
Proof.
  induction d as [|[k r] t IH]; simpl; [reflexivity|].
  destruct (Z.eqb p k); simpl; [reflexivity | now rewrite IH].
Qed.

Lemma dict_get_registrar (v : key) (s : Q) (d : dict) (p q : key) :
  dict_get q (registrar v s d p) =
  if Z.eqb q p then Some (atualizar v s (dict_get p d)) else dict_get q d.
Proof.
  unfold registrar. destruct (dict_get p d) as [r|] eqn:E.
  - rewrite dict_get_update, E. reflexivity.
  - rewrite dict_get_app. simpl.
    destruct (Z.eqb_spec q p) as [->|Hne].
    + now rewrite E.
    + now destruct (dict_get q d).
Qed.

Lemma registrar_NoDup (v : key) (s : Q) (d : dict) (p : key) :
  NoDup (map fst d) -> NoDup (map fst (registrar v s d p)).
Proof.
  intro H. unfold registrar. destruct (dict_get p d) as [r|] eqn:E.
  - now rewrite dict_update_keys.
  - rewrite map_app. simpl. apply dict_get_None in E.
    apply NoDup_rev in H. rewrite <- (rev_involutive (map fst d ++ [p])).
    apply NoDup_rev. rewrite rev_app_distr. simpl.
    constructor; [|assumption]. now rewrite <- in_rev.
Qed.

Lemma fold_registrar_NoDup (v : key) (s : Q) (ps : list key) (d : dict) :
  NoDup (map fst d) -> NoDup (map fst (fold_left (registrar v s) ps d)).
Proof.
  revert d. induction ps as [|p t IH]; simpl; intros d H; [assumption|].
  apply IH. now apply registrar_NoDup.
Qed.

(** One neighbour's pass over its new products touches exactly their
    entries, each once. *)
Lemma dict_get_fold_registrar (v : key) (s : Q) (ps : list key) (d : dict) (q : key) :
  NoDup ps ->
  dict_get q (fold_left (registrar v s) ps d) =
  if mem q ps then Some (atualizar v s (dict_get q d)) else dict_get q d.
Proof.
  revert d. induction ps as [|p t IH]; intros d Hnd; [reflexivity|].
  inversion Hnd as [|? ? Hp Ht]; subst.
  simpl fold_left. rewrite (IH _ Ht), dict_get_registrar.
  unfold mem. simpl existsb. fold (mem q t).
  destruct (Z.eqb_spec q p) as [->|Hne]; simpl.
  - apply mem_not_In in Hp. now rewrite Hp.
  - reflexivity.
Qed.

(** ** [max] *)

Lemma py_max_cases (a b : Q) :
  (py_max a b = a \/ py_max a b = b) /\ (a <= py_max a b)%Q /\ (b <= py_max a b)%Q.
Proof.
  unfold py_max. destruct (Qltb a b) eqn:E.
  - apply Qltb_lt in E. repeat split; [now right | now apply Qlt_le_weak | apply Qle_refl].
  - repeat split; [now left | apply Qle_refl |].
    unfold Qltb in E. apply negb_false_iff in E. now apply Qle_bool_iff.
Qed.

Lemma fold_py_max (l : list Q) (a : Q) :
  In (fold_left py_max l a) (a :: l) /\
  (forall x, In x (a :: l) -> (x <= fold_left py_max l a)%Q).
Proof.
  revert a. induction l as [|b t IH]; intro a; simpl.
  - split; [now left|]. intros x [<-|[]]. apply Qle_refl.
  - destruct (IH (py_max a b)) as [Hin Hmax].
    destruct (py_max_cases a b) as [Hc [Ha Hb]]. split.
    + destruct Hin as [He|Hin]; [|right; right; assumption].
      destruct Hc as [Hc|Hc]; [left | right; left]; rewrite <- He; now symmetry.
    + intros x [<-|[<-|Hx]].
      * eapply Qle_trans; [exact Ha|]. apply Hmax. now left.
      * eapply Qle_trans; [exact Hb|]. apply Hmax. now left.
      * apply Hmax. now right.
Qed.

Lemma entrada_snoc (sup : Series Q) (v : key) (s : Q) :
  entrada (sup ++ [(v, s)]) = Some (atualizar v s (entrada sup)).
Proof.
  destruct sup as [|[v0 s0] t]; simpl; [reflexivity|].
  rewrite !map_app, fold_left_app. reflexivity.
Qed.

(** ** [obter_recomendacoes]: the purchased sets and the aggregation loop *)

Section Recomendacoes.
Variable argsort_kernel : Series Q -> Series Q.
Variable iter_set : list key -> list key.
Variable iter_diff : list key -> list key.

(** What the platform guarantees: the sort reorders and does not invent or
    lose entries, and iterating a set visits each member once. *)
Hypothesis kernel_perm : forall s, Permutation s (argsort_kernel s).
Hypothesis iter_set_perm : forall l, Permutation l (iter_set l).
Hypothesis iter_diff_perm : forall l, Permutation l (iter_diff l).

Lemma positive_labels_row (matriz : DataFrame Q) (v p : key) :
  In p (positive_labels (map (fun c => (c, cell matriz v c)) (columns matriz))) <->
  comprou matriz v p = true.
Proof.
  unfold positive_labels, comprou. rewrite andb_true_iff, mem_In, in_map_iff.
  split.
  - intros [[c q] [Hfst Hin]]. simpl in Hfst. subst c.
    apply filter_In in Hin. destruct Hin as [Hin Hq]. simpl in Hq.
    apply in_map_iff in Hin. destruct Hin as [c [He Hc]].
    inversion He; subst. now split.
  - intros [Hc Hq]. exists (p, cell matriz v p). split; [reflexivity|].
    apply filter_In. split; [|assumption].
    apply in_map_iff. now exists p.
Qed.

Lemma produtos_de_Returns (matriz : DataFrame Q) (c : key) (l : list key) :
  produtos_de iter_set matriz c = Returns l ->
  In c (index matriz) /\ NoDup l /\ (forall p, In p l <-> comprou matriz c p = true).
Proof.
  unfold produtos_de, loc. destruct (mem c (index matriz)) eqn:E; simpl; [|discriminate].
  intro H. inversion H as [Hl]. clear H.
  split; [now apply mem_In|]. split.
  - eapply Permutation_NoDup; [apply iter_set_perm | apply NoDup_nodup].
  - intro p. rewrite <- positive_labels_row. split; intro Hp.
    + apply (nodup_In Z.eq_dec).
      eapply Permutation_in; [apply Permutation_sym, iter_set_perm | exact Hp].
    + eapply Permutation_in; [apply iter_set_perm|]. now apply nodup_In.
Qed.

Lemma produtos_de_index (matriz : DataFrame Q) (c : key) :
  In c (index matriz) -> exists l, produtos_de iter_set matriz c = Returns l.
Proof.
  intro H. unfold produtos_de, loc. apply mem_In in H. rewrite H. simpl.
  eexists. reflexivity.
Qed.

Lemma produtos_de_KeyError (matriz : DataFrame Q) (c : key) :
  ~ In c (index matriz) -> produtos_de iter_set matriz c = Raises (KeyError c).
Proof.
  intro H. unfold produtos_de, loc. apply mem_not_In in H. now rewrite H.
Qed.

Lemma produtos_novos_mem (matriz : DataFrame Q) (pc pv : list key) (v q : key) :
  produtos_de iter_set matriz v = Returns pv ->
  mem q (iter_diff (filter (fun p => negb (mem p pc)) pv)) =
  comprou matriz v q && negb (mem q pc).
Proof.
  intro H. apply produtos_de_Returns in H. destruct H as [_ [_ Hin]].
  apply eq_true_iff_eq. rewrite mem_In, andb_true_iff, <- Hin. split.
  - intro Hq. apply (Permutation_in q (Permutation_sym (iter_diff_perm _))) in Hq.
    now apply filter_In in Hq.
  - intro Hq. apply (Permutation_in q (iter_diff_perm _)).
    now apply filter_In.
Qed.

Lemma produtos_novos_NoDup (matriz : DataFrame Q) (pc pv : list key) (v : key) :
  produtos_de iter_set matriz v = Returns pv ->
  NoDup (iter_diff (filter (fun p => negb (mem p pc)) pv)).
Proof.
  intro H. apply produtos_de_Returns in H. destruct H as [_ [Hnd _]].
  eapply Permutation_NoDup; [apply iter_diff_perm|]. now apply NoDup_filter.
Qed.

Lemma apoiadores_snoc (matriz : DataFrame Q) (pc : list key) (p : key)
    (done : Series Q) (v : key) (s : Q) :
  apoiadores matriz pc p (done ++ [(v, s)]) =
  apoiadores matriz pc p done ++
  (if comprou matriz v p && negb (mem p pc) then [(v, s)] else []).
Proof.
  unfold apoiadores. rewrite filter_app. simpl.
  now destruct (comprou matriz v p && negb (mem p pc)).
Qed.

(** The loop invariant: the dictionary holds, for every product, the
    entry of its supporters among the neighbours scanned so far. *)
Lemma coletar_spec (matriz : DataFrame Q) (pc : list key) (similares : Series Q) :
  forall (done : Series Q) (d d' : dict),
    (forall q, dict_get q d = entrada (apoiadores matriz pc q done)) ->
    NoDup (map fst d) ->
    coletar iter_set iter_diff matriz pc similares d = Returns d' ->
    (forall q, dict_get q d' = entrada (apoiadores matriz pc q (done ++ similares))) /\
    NoDup (map fst d').
Proof.
  induction similares as [|[v s] rest IH]; intros done d d' Hinv Hnd Hrun.
  - simpl in Hrun. inversion Hrun; subst. rewrite app_nil_r. now split.
  - simpl in Hrun.
    destruct (produtos_de iter_set matriz v) as [pv|e] eqn:Epv; simpl in Hrun;
      [|discriminate].
    replace (done ++ (v, s) :: rest) with ((done ++ [(v, s)]) ++ rest)
      by (rewrite <- app_assoc; reflexivity).
    eapply (IH (done ++ [(v, s)])); [| |exact Hrun].
    + intro q.
      rewrite dict_get_fold_registrar by (eapply produtos_novos_NoDup; eassumption).
      rewrite (produtos_novos_mem matriz pc pv v q Epv), apoiadores_snoc, Hinv.
      destruct (comprou matriz v q && negb (mem q pc)).
      * now rewrite entrada_snoc.
      * now rewrite app_nil_r.
    + now apply fold_registrar_NoDup.
Qed.

Lemma coletar_entries (matriz : DataFrame Q) (pc : list key) (similares : Series Q)
    (d : dict) :
  coletar iter_set iter_diff matriz pc similares [] = Returns d ->
  NoDup (map fst d) /\
  forall p r, In (p, r) d <-> entrada (apoiadores matriz pc p similares) = Some r.
Proof.
  intro H.
  destruct (coletar_spec matriz pc similares [] [] d) as [Hget Hnd];
    [reflexivity | constructor | exact H |].
  split; [assumption|]. intros p r. simpl in Hget. rewrite <- Hget. split.
  - now apply In_dict_get.
  - apply dict_get_In.
Qed.

(** The loop fails only on a neighbour that is not a row of the matrix. *)
Lemma coletar_total (matriz : DataFrame Q) (pc : list key) (similares : Series Q) :
  forall d, (forall vs, In vs similares -> In (fst vs) (index matriz)) ->
            exists d', coletar iter_set iter_diff matriz pc similares d = Returns d'.
Proof.
  induction similares as [|[v s] rest IH]; intros d H; simpl.
  - eexists. reflexivity.
  - destruct (produtos_de_index matriz v) as [pv Epv].
    { apply (H (v, s)). now left. }
    rewrite Epv. simpl. apply IH. intros vs Hin. apply H. now right.
Qed.

(** A product with a supporter was not purchased by the target, and its
    supporters are then the neighbours that purchased it. *)
Lemma apoiadores_comprou (matriz : DataFrame Q) (pc : list key) (p : key)
    (similares : Series Q) :
  apoiadores matriz pc p similares <> [] ->
  mem p pc = false /\
  apoiadores matriz pc p similares =
  filter (fun vs => comprou matriz (fst vs) p) similares.
Proof.
  intro H. destruct (mem p pc) eqn:E.
  - elim H. unfold apoiadores. rewrite E. clear H.
    induction similares as [|x t IH]; simpl; [reflexivity|].
    now rewrite andb_false_r.
  - split; [reflexivity|]. unfold apoiadores. apply filter_ext.
    intro vs. rewrite E. simpl. apply andb_true_r.
Qed.

Lemma entrada_Some (sup : Series Q) (r : Rec) :
  entrada sup = Some r ->
  sup <> [] /\ vizinhos r = map fst sup /\
  In (score r) (map snd sup) /\
  (forall s, In s (map snd sup) -> (s <= score r)%Q).
Proof.
  destruct sup as [|[v s] t]; simpl; intro H; [discriminate|].
  inversion H; subst; simpl. clear H.
  destruct (fold_py_max (map snd t) s) as [Hin Hmax].
  repeat split; [discriminate | exact Hin | exact Hmax].
Qed.

Lemma obter_recomendacoes_Returns (cliente_id : key) (matriz df_similaridade : DataFrame Q)
    (n_vizinhos : Z) (pc : list key) (similares : Series Q) (recs : dict) :
  obter_recomendacoes argsort_kernel iter_set iter_diff
    cliente_id matriz df_similaridade n_vizinhos = Returns (pc, similares, recs) ->
  produtos_de iter_set matriz cliente_id = Returns pc /\
  exists coluna d,
    getitem df_similaridade cliente_id = Returns coluna /\
    similares = py_slice 1 (n_vizinhos + 1) (sort_values_desc argsort_kernel coluna) /\
    coletar iter_set iter_diff matriz pc similares [] = Returns d /\
    recs = py_sorted_reverse (fun x => score (snd x)) d.
Proof.
  unfold obter_recomendacoes. intro H.
  destruct (produtos_de iter_set matriz cliente_id) as [pc0|e] eqn:E1; simpl in H;
    [|discriminate].
  destruct (getitem df_similaridade cliente_id) as [coluna|e] eqn:E2; simpl in H;
    [|discriminate].
  destruct (coletar iter_set iter_diff matriz pc0 _ []) as [d|e] eqn:E3; simpl in H;
    [|discriminate].
  inversion H; subst. split; [reflexivity|].
  exists coluna, d. repeat split. exact E3.
Qed.

(** Scanning one more neighbour never lowers the score of a product; if
    the neighbour purchased the product, the new score is at least the
    neighbour's similarity and the neighbour is appended to the
    supporters. *)
Lemma coletar_one_more (matriz : DataFrame Q) (pc : list key) (similares : Series Q)
    (v : key) (s : Q) (d d' : dict) :
  coletar iter_set iter_diff matriz pc similares [] = Returns d ->
  coletar iter_set iter_diff matriz pc (similares ++ [(v, s)]) [] = Returns d' ->
  forall p r, In (p, r) d ->
    exists r', In (p, r') d' /\ (score r <= score r')%Q /\
               (comprou matriz v p = true ->
                (s <= score r')%Q /\ vizinhos r' = vizinhos r ++ [v]) /\
               (comprou matriz v p = false -> r' = r).
Proof.
  intros H H' p r Hin.
  apply coletar_entries in H, H'. destruct H as [_ H]. destruct H' as [_ H'].
  apply H in Hin.
  assert (Hpc : mem p pc = false).
  { destruct (entrada_Some _ _ Hin) as [Hne _].
    now destruct (apoiadores_comprou _ _ _ _ Hne). }
  assert (Hs : entrada (apoiadores matriz pc p (similares ++ [(v, s)])) =
               Some (if comprou matriz v p then atualizar v s (Some r) else r)).
  { rewrite apoiadores_snoc, Hpc, andb_true_r. destruct (comprou matriz v p).
    - now rewrite entrada_snoc, Hin.
    - now rewrite app_nil_r. }
  apply H' in Hs. eexists. split; [exact Hs|].
  destruct (comprou matriz v p); simpl.
  - destruct (py_max_cases (score r) s) as [_ [Ha Hb]].
    split; [assumption|]. split; [now split | discriminate].
  - split; [apply Qle_refl|]. split; [discriminate | reflexivity].
Qed.

(** C5: the recommendation entries are those of the products that some
    selected neighbour purchased and the target did not: each such product
    has an entry, and every entry has at least one supporting neighbour.
    The ['vizinhos'] of an entry are the selected neighbours that purchased
    the product, in ranking order, and its score is the maximum of their
    similarity scores: it is one of them and none of them exceeds it.
    Consequently, scanning one more neighbour never decreases the score of
    a product: a neighbour that purchased it leaves the larger of the old
    score and its own similarity, any other neighbour leaves the entry as
    it is. *)
Theorem obter_recomendacoes_score_is_max :
  forall (cliente_id : key) (matriz df_similaridade : DataFrame Q) (n_vizinhos : Z)
         (pc : list key) (similares : Series Q) (recs : dict),
    obter_recomendacoes argsort_kernel iter_set iter_diff
      cliente_id matriz df_similaridade n_vizinhos = Returns (pc, similares, recs) ->
    (forall p, ~ In p pc -> compradores matriz p similares <> [] ->
       exists r, In (p, r) recs) /\
    (forall p r, In (p, r) recs ->
       compradores matriz p similares <> [] /\
       vizinhos r = map fst (compradores matriz p similares) /\
       In (score r) (map snd (compradores matriz p similares)) /\
       (forall s, In s (map snd (compradores matriz p similares)) ->
                  (s <= score r)%Q)) /\
    (forall (mais : Series Q) (v : key) (s : Q) (d d' : dict),
       coletar iter_set iter_diff matriz pc mais [] = Returns d ->
       coletar iter_set iter_diff matriz pc (mais ++ [(v, s)]) [] = Returns d' ->
       forall p r, In (p, r) d ->
         exists r', In (p, r') d' /\ (score r <= score r')%Q /\
                    (comprou matriz v p = true ->
                     (s <= score r')%Q /\ vizinhos r' = vizinhos r ++ [v]) /\
                    (comprou matriz v p = false -> r' = r)).
Proof.
  intros c m sim n pc sims recs H.
  pose proof H as H0. apply obter_recomendacoes_Returns in H0.
  destruct H0 as [_ [coluna [d [_ [_ [Hd Hrecs]]]]]]. subst recs.
  apply coletar_entries in Hd. destruct Hd as [_ Hd].
  split; [|split].
  - intros p Hp Hne. apply mem_not_In in Hp.
    assert (Heq : apoiadores m pc p sims = compradores m p sims).
    { unfold apoiadores, compradores. apply filter_ext. intro vs.
      now rewrite Hp, andb_true_r. }
    destruct (entrada (apoiadores m pc p sims)) as [r|] eqn:Er.
    + exists r. apply (Permutation_in _ (py_sorted_reverse_perm _ d)).
      now apply Hd.
    + rewrite Heq in Er. destruct (compradores m p sims) as [|[v s] t];
        [now elim Hne | discriminate].
  - intros p r Hin.
    apply (Permutation_in _ (Permutation_sym (py_sorted_reverse_perm _ d))) in Hin.
    apply Hd in Hin.
    destruct (entrada_Some _ _ Hin) as [Hne Hrest].
    destruct (apoiadores_comprou _ _ _ _ Hne) as [_ Heq].
    unfold compradores. rewrite <- Heq. split; assumption.
  - intros mais v s d0 d'. apply coletar_one_more.
Qed.

(** C9: no product of the recommendations is in the returned set of
    purchased products. *)
Theorem obter_recomendacoes_excludes_purchased :
  forall (cliente_id : key) (matriz df_similaridade : DataFrame Q) (n_vizinhos : Z)
         (pc : list key) (similares : Series Q) (recs : dict),
    obter_recomendacoes argsort_kernel iter_set iter_diff
      cliente_id matriz df_similaridade n_vizinhos = Returns (pc, similares, recs) ->
    forall p r, In (p, r) recs -> ~ In p pc.
Proof.
  intros c m sim n pc sims recs H p r Hin.
  apply obter_recomendacoes_Returns in H.
  destruct H as [_ [coluna [d [_ [_ [Hd Hrecs]]]]]]. subst recs.
  apply (Permutation_in _ (Permutation_sym (py_sorted_reverse_perm _ d))) in Hin.
  apply coletar_entries in Hd. destruct Hd as [_ Hd]. apply Hd in Hin.
  destruct (entrada_Some _ _ Hin) as [Hne _].
  destruct (apoiadores_comprou _ _ _ _ Hne) as [Hmem _].
  now apply mem_not_In.
Qed.

(** The dictionary only grows at its end: a product keeps the place it
    got when the loop first met it. *)
Lemma registrar_extends (v : key) (s : Q) (d : dict) (p : key) :
  exists ext, map fst (registrar v s d p) = map fst d ++ ext.
Proof.
  unfold registrar. destruct (dict_get p d).
  - exists []. now rewrite dict_update_keys, app_nil_r.
  - exists [p]. now rewrite map_app.
Qed.

Lemma fold_registrar_extends (v : key) (s : Q) (ps : list key) (d : dict) :
  exists ext, map fst (fold_left (registrar v s) ps d) = map fst d ++ ext.
Proof.
  revert d. induction ps as [|p t IH]; intro d; simpl.
  - exists []. now rewrite app_nil_r.
  - destruct (IH (registrar v s d p)) as [e1 H1].
    destruct (registrar_extends v s d p) as [e2 H2].
    exists (e2 ++ e1). now rewrite H1, H2, app_assoc.
Qed.

Lemma coletar_extends (matriz : DataFrame Q) (pc : list key) (similares : Series Q) :
  forall d d',
    coletar iter_set iter_diff matriz pc similares d = Returns d' ->
    exists ext, map fst d' = map fst d ++ ext.
Proof.
  induction similares as [|[v s] rest IH]; intros d d' H; simpl in H.
  - inversion H; subst. exists []. now rewrite app_nil_r.
  - destruct (produtos_de iter_set matriz v) as [pv|e]; simpl in H; [|discriminate].
    destruct (IH _ _ H) as [e1 H1].
    destruct (fold_registrar_extends v s
                (iter_diff (filter (fun p => negb (mem p pc)) pv)) d) as [e2 H2].
    exists (e2 ++ e1). now rewrite H1, H2, app_assoc.
Qed.

Lemma coletar_app (matriz : DataFrame Q) (pc : list key) (s1 s2 : Series Q) :
  forall d,
    coletar iter_set iter_diff matriz pc (s1 ++ s2) d =
    (d1 <- coletar iter_set iter_diff matriz pc s1 d ;;
     coletar iter_set iter_diff matriz pc s2 d1).
Proof.
  induction s1 as [|[v s] rest IH]; intro d; simpl; [reflexivity|].
  destruct (produtos_de iter_set matriz v) as [pv|e]; simpl; [apply IH | reflexivity].
Qed.

(** C6 (amended): the recommendations are sorted by score descending and
    hold exactly the entries of the dictionary built by the loop; entries
    with equal scores keep the order they have in the dictionary ([sorted]
    is stable and there is no tie-break on the product id), and the
    dictionary lists the products in the order in which the loop first met
    them: what it holds after any first part of the neighbour ranking is the
    beginning of what it holds at the end.  The function is deterministic,
    so a repeated call yields the same sequence. *)
Theorem obter_recomendacoes_sorted_by_score :
  forall (cliente_id : key) (matriz df_similaridade : DataFrame Q) (n_vizinhos : Z)
         (pc : list key) (similares : Series Q) (recs : dict),
    obter_recomendacoes argsort_kernel iter_set iter_diff
      cliente_id matriz df_similaridade n_vizinhos = Returns (pc, similares, recs) ->
    StronglySorted (fun a b => (score (snd b) <= score (snd a))%Q) recs /\
    (exists d,
       coletar iter_set iter_diff matriz pc similares [] = Returns d /\
       Permutation d recs /\
       (forall q, filter (fun e => Qeq_bool (score (snd e)) q) recs =
                  filter (fun e => Qeq_bool (score (snd e)) q) d) /\
       (forall primeiros resto,
          similares = primeiros ++ resto ->
          exists d0 ext,
            coletar iter_set iter_diff matriz pc primeiros [] = Returns d0 /\
            map fst d = map fst d0 ++ ext)) /\
    (forall res,
       obter_recomendacoes argsort_kernel iter_set iter_diff
         cliente_id matriz df_similaridade n_vizinhos = Returns res ->
       res = (pc, similares, recs)).
Proof.
  intros c m sim n pc sims recs H. split; [|split].
  - apply obter_recomendacoes_Returns in H.
    destruct H as [_ [coluna [d [_ [_ [_ Hrecs]]]]]]. subst recs.
    apply (py_sorted_reverse_descending (fun x : key * Rec => score (snd x))).
  - apply obter_recomendacoes_Returns in H.
    destruct H as [_ [coluna [d [_ [_ [Hd Hrecs]]]]]]. subst recs.
    exists d. split; [assumption|]. split; [|split].
    + apply py_sorted_reverse_perm.
    + intro q. apply (py_sorted_reverse_stable (fun x : key * Rec => score (snd x))).
    + intros primeiros resto Hsplit. subst sims.
      rewrite coletar_app in Hd.
      destruct (coletar iter_set iter_diff m pc primeiros []) as [d0|e] eqn:E0;
        simpl in Hd; [|discriminate].
      exists d0. destruct (coletar_extends _ _ _ _ _ Hd) as [ext Hext].
      exists ext. now split.
  - intros res Hres. rewrite H in Hres. now inversion Hres.
Qed.

Lemma getitem_column (df : DataFrame Q) (c : key) :
  In c (columns df) ->
  getitem df c = Returns (map (fun r => (r, cell df r c)) (index df)).
Proof.
  intro H. unfold getitem. apply mem_In in H. now rewrite H.
Qed.

Lemma similares_in_index (df : DataFrame Q) (c : key) (n : Z) (vs : key * Q) :
  In vs (py_slice 1 (n + 1)
           (sort_values_desc argsort_kernel
              (map (fun r => (r, cell df r c)) (index df)))) ->
  In (fst vs) (index df).
Proof.
  intro H. apply py_slice_incl in H. unfold sort_values_desc in H.
  apply in_rev in H.
  apply (Permutation_in _ (Permutation_sym (kernel_perm _))) in H.
  apply in_rev in H. apply in_map_iff in H. destruct H as [r [He Hr]].
  now subst vs.
Qed.

(** Every lookup of the function succeeds when the target is a row of the
    matrix and a column of the similarity matrix, and the row labels of the
    similarity matrix are rows of the matrix. *)
Lemma obter_recomendacoes_total (cliente_id : key)
    (matriz df_similaridade : DataFrame Q) (n_vizinhos : Z) :
  In cliente_id (index matriz) ->
  In cliente_id (columns df_similaridade) ->
  (forall v, In v (index df_similaridade) -> In v (index matriz)) ->
  exists res,
    obter_recomendacoes argsort_kernel iter_set iter_diff
      cliente_id matriz df_similaridade n_vizinhos = Returns res.
Proof.
  intros Hin Hc Hsub. unfold obter_recomendacoes.
  destruct (produtos_de_index matriz cliente_id Hin) as [pc Epc].
  rewrite Epc. cbn [bind].
  rewrite (getitem_column _ _ Hc). cbn [bind].
  destruct (coletar_total matriz pc
              (py_slice 1 (n_vizinhos + 1)
                 (sort_values_desc argsort_kernel
                    (map (fun r => (r, cell df_similaridade r cliente_id))
                         (index df_similaridade)))) [])
    as [d Ed].
  { intros vs Hvs. apply Hsub. eapply similares_in_index. exact Hvs. }
  rewrite Ed. cbn [bind]. eexists. reflexivity.
Qed.

(** With the target a row of the matrix and the similarity frame over the
    customers of the matrix, every lookup of the function succeeds. *)
Lemma obter_recomendacoes_succeeds (cliente_id : key)
    (matriz df_similaridade : DataFrame Q) (n_vizinhos : Z) :
  In cliente_id (index matriz) ->
  similarity_frame_of matriz df_similaridade ->
  exists res,
    obter_recomendacoes argsort_kernel iter_set iter_diff
      cliente_id matriz df_similaridade n_vizinhos = Returns res.
Proof.
  intros H [Hidx Hcols]. unfold obter_recomendacoes.
  destruct (produtos_de_index matriz cliente_id H) as [pc Epc]. rewrite Epc. simpl.
  rewrite getitem_column by (now rewrite Hcols). simpl.
  destruct (coletar_total matriz pc
              (py_slice 1 (n_vizinhos + 1)
                 (sort_values_desc argsort_kernel
                    (map (fun r => (r, cell df_similaridade r cliente_id))
                         (index df_similaridade)))) [])
    as [d Ed].
  { intros vs Hin. rewrite <- Hidx. eapply similares_in_index. exact Hin. }
  rewrite Ed. simpl. eexists. reflexivity.
Qed.

(** When the loop fails, it is on the row lookup of a neighbour that is
    not a row of the matrix. *)
Lemma coletar_Raises (matriz : DataFrame Q) (pc : list key) (similares : Series Q) :
  forall d e,
    coletar iter_set iter_diff matriz pc similares d = Raises e ->
    exists vs, In vs similares /\ ~ In (fst vs) (index matriz) /\ e = KeyError (fst vs).
Proof.
  induction similares as [|[v s] rest IH]; intros d e H; simpl in H; [discriminate|].
  destruct (in_dec Z.eq_dec v (index matriz)) as [Hin|Hnin].
  - destruct (produtos_de_index matriz v Hin) as [pv Epv].
    rewrite Epv in H. simpl in H.
    destruct (IH _ _ H) as [vs [Hvs Hrest]]. exists vs. split; [now right | exact Hrest].
  - rewrite (produtos_de_KeyError matriz v Hnin) in H. simpl in H.
    inversion H. exists (v, s). split; [now left|]. now split.
Qed.

(** C3 (amended): if the target is not a row of the matrix, the call fails
    with the [KeyError] of the row lookup carrying the target's key (the
    program's error for an unknown customer), whatever the similarity
    matrix and the neighbour count.  When the target is a row of the
    matrix, the call fails with that same error exactly when the target is
    not a column of the similarity matrix (the lookup of line 110); and it
    raises no error at all when, besides, every row label of the similarity
    matrix is a row of the matrix. *)
Theorem obter_recomendacoes_unknown_customer :
  forall (cliente_id : key) (matriz df_similaridade : DataFrame Q) (n_vizinhos : Z),
    (~ In cliente_id (index matriz) ->
       obter_recomendacoes argsort_kernel iter_set iter_diff
         cliente_id matriz df_similaridade n_vizinhos = Raises (KeyError cliente_id)) /\
    (In cliente_id (index matriz) ->
       (obter_recomendacoes argsort_kernel iter_set iter_diff
          cliente_id matriz df_similaridade n_vizinhos = Raises (KeyError cliente_id)
        <-> ~ In cliente_id (columns df_similaridade))) /\
    (In cliente_id (index matriz) ->
     In cliente_id (columns df_similaridade) ->
     (forall v, In v (index df_similaridade) -> In v (index matriz)) ->
     exists res,
       obter_recomendacoes argsort_kernel iter_set iter_diff
         cliente_id matriz df_similaridade n_vizinhos = Returns res).
Proof.
  intros c m sim n. split; [|split].
  - intro H. unfold obter_recomendacoes.
    now rewrite (produtos_de_KeyError m c H).
  - intro Hin. unfold obter_recomendacoes.
    destruct (produtos_de_index m c Hin) as [pc Epc]. rewrite Epc. cbn [bind].
    split.
    + intros H Hc. rewrite (getitem_column _ _ Hc) in H. cbn [bind] in H.
      match type of H with
      | context [coletar ?a ?b ?mm ?p ?s ?d] =>
          destruct (coletar a b mm p s d) as [d'|e'] eqn:E
      end; cbn [bind] in H; [discriminate|].
      inversion H; subst e'. apply coletar_Raises in E.
      destruct E as [vs [_ [Hn Hk]]]. inversion Hk as [Hvs].
      rewrite <- Hvs in Hn. contradiction.
    + intro Hnc. unfold getitem. apply mem_not_In in Hnc. now rewrite Hnc.
  - apply obter_recomendacoes_total.
Qed.

(** C10 (amended): with [n_vizinhos = 0] and a target that is a row of the
    matrix, the call raises nothing exactly when the target is a column of
    the similarity matrix: it then returns the target's purchased products,
    an empty neighbour ranking and no recommendation; otherwise the column
    lookup of line 110 raises [KeyError]. *)
Theorem obter_recomendacoes_zero_neighbours :
  forall (cliente_id : key) (matriz df_similaridade : DataFrame Q),
    In cliente_id (index matriz) ->
    (In cliente_id (columns df_similaridade) ->
     exists pc,
       obter_recomendacoes argsort_kernel iter_set iter_diff
         cliente_id matriz df_similaridade 0 = Returns (pc, [], []) /\
       NoDup pc /\
       (forall p, In p pc <-> comprou matriz cliente_id p = true)) /\
    (~ In cliente_id (columns df_similaridade) ->
     obter_recomendacoes argsort_kernel iter_set iter_diff
       cliente_id matriz df_similaridade 0 = Raises (KeyError cliente_id)).
Proof.
  intros c m sim H. unfold obter_recomendacoes.
  destruct (produtos_de_index m c H) as [pc Epc]. rewrite Epc. cbn [bind].
  split.
  - intro Hc. rewrite (getitem_column _ _ Hc). cbn [bind].
    rewrite py_slice_1_1. simpl. exists pc. split; [reflexivity|].
    apply produtos_de_Returns in Epc. tauto.
  - intro Hnc. unfold getitem. apply mem_not_In in Hnc. now rewrite Hnc.
Qed.

End Recomendacoes.

(** ** The reference platform *)

Lemma insertion_kernel_perm (s : Series Q) : Permutation s (insertion_kernel s).
Proof. apply stable_sort_perm. Qed.

Lemma insertion_kernel_sorted (s : Series Q) :
  StronglySorted (fun a b => (snd a <= snd b)%Q) (insertion_kernel s).
Proof. apply (stable_sort_sorted (@snd key Q)). Qed.

Lemma same_order_perm (l : list key) : Permutation l ((fun l => l) l).
Proof. apply Permutation_refl. Qed.

Lemma obter_recomendacoes_ref_empate :
  obter_recomendacoes_ref 1 matriz_empate similaridade_empate 5 =
  Returns ([1],
           [(2, score_empate); (3, score_empate)],
           [(5, {| score := score_empate; vizinhos := [2] |});
            (3, {| score := score_empate; vizinhos := [3] |})]).
Proof. vm_compute. reflexivity. Qed.

Lemma obter_recomendacoes_ref_apoio :
  obter_recomendacoes_ref 1 matriz_apoio similaridade_apoio 5 =
  Returns ([10],
           [(2, (7 # 10)%Q); (3, (1 # 2)%Q)],
           [(30, {| score := (7 # 10)%Q; vizinhos := [2; 3] |});
            (20, {| score := (1 # 2)%Q; vizinhos := [3] |})]).
Proof. vm_compute. reflexivity. Qed.

Lemma obter_recomendacoes_score_is_max_witness :
  (exists r, In (30, r)
               [(30, {| score := (7 # 10)%Q; vizinhos := [2; 3] |});
                (20, {| score := (1 # 2)%Q; vizinhos := [3] |})]) /\
  compradores matriz_apoio 30 [(2, (7 # 10)%Q); (3, (1 # 2)%Q)]
    = [(2, (7 # 10)%Q); (3, (1 # 2)%Q)] /\
  [2; 3] = map fst (compradores matriz_apoio 30 [(2, (7 # 10)%Q); (3, (1 # 2)%Q)]) /\
  In (7 # 10)%Q
     (map snd (compradores matriz_apoio 30 [(2, (7 # 10)%Q); (3, (1 # 2)%Q)])) /\
  (forall s,
     In s (map snd (compradores matriz_apoio 30 [(2, (7 # 10)%Q); (3, (1 # 2)%Q)])) ->
     (s <= 7 # 10)%Q).
Proof.
  destruct (obter_recomendacoes_score_is_max
              insertion_kernel (fun l => l) (fun l => l)
              same_order_perm same_order_perm
              1 matriz_apoio similaridade_apoio 5 _ _ _
              obter_recomendacoes_ref_apoio) as [Hall [Hmax _]].
  split.
  - apply (Hall 30).
    + simpl. intuition discriminate.
    + vm_compute. discriminate.
  - split; [vm_compute; reflexivity|].
    destruct (Hmax 30 {| score := (7 # 10)%Q; vizinhos := [2; 3] |} (or_introl eq_refl))
      as [_ H].
    exact H.
Defined.

Lemma obter_recomendacoes_excludes_purchased_witness :
  ~ In 5 [1].
Proof.
  exact (obter_recomendacoes_excludes_purchased
           insertion_kernel (fun l => l) (fun l => l)
           same_order_perm same_order_perm
           1 matriz_empate similaridade_empate 5 _ _ _
           obter_recomendacoes_ref_empate
           5 {| score := score_empate; vizinhos := [2] |} (or_introl eq_refl)).
Defined.

Lemma obter_recomendacoes_sorted_by_score_witness :
  StronglySorted (fun a b : key * Rec => (score (snd b) <= score (snd a))%Q)
    [(5, {| score := score_empate; vizinhos := [2] |});
     (3, {| score := score_empate; vizinhos := [3] |})].
Proof.
  exact (proj1 (obter_recomendacoes_sorted_by_score
                  insertion_kernel (fun l => l) (fun l => l)
                  1 matriz_empate similaridade_empate 5 _ _ _
                  obter_recomendacoes_ref_empate)).
Defined.

(** C6, as stated, fails: customers 2 and 3 are equally similar to the
    target 1, so products 5 and 3 tie; they come out as 5, 3, the order in
    which the loop met them (customer 2 before customer 3), and not by
    ascending product id. *)
Lemma obter_recomendacoes_tie_not_by_product_id :
  exists pc similares r5 r3,
    obter_recomendacoes_ref 1 matriz_empate similaridade_empate 5 =
      Returns (pc, similares, [(5, r5); (3, r3)]) /\
    (score r5 == score r3)%Q /\
    3 < 5.
Proof.
  do 4 eexists. split; [apply obter_recomendacoes_ref_empate|].
  split; [reflexivity | reflexivity].
Qed.

Lemma obter_recomendacoes_unknown_customer_witness :
  obter_recomendacoes_ref 9 matriz_empate similaridade_empate 5 = Raises (KeyError 9) /\
  (obter_recomendacoes_ref 1 matriz_empate similaridade_sem_alvo 5 = Raises (KeyError 1)
   <-> ~ In 1 (columns similaridade_sem_alvo)) /\
  exists res, obter_recomendacoes_ref 1 matriz_empate similaridade_empate 5 = Returns res.
Proof.
  assert (H1 : In 1 (index matriz_empate)) by (vm_compute; now left).
  split; [|split].
  - refine (proj1 (obter_recomendacoes_unknown_customer
                     insertion_kernel (fun l => l) (fun l => l) insertion_kernel_perm
                     9 matriz_empate similaridade_empate 5) _).
    vm_compute. intuition discriminate.
  - exact (proj1 (proj2 (obter_recomendacoes_unknown_customer
                           insertion_kernel (fun l => l) (fun l => l) insertion_kernel_perm
                           1 matriz_empate similaridade_sem_alvo 5)) H1).
  - refine (proj2 (proj2 (obter_recomendacoes_unknown_customer
                            insertion_kernel (fun l => l) (fun l => l) insertion_kernel_perm
                            1 matriz_empate similaridade_empate 5)) H1 _ _).
    + vm_compute. now left.
    + intros v Hv. vm_compute in Hv. vm_compute. exact Hv.
Defined.

(** C3, as stated, fails: customer 1 is a row of the matrix, and the call
    still fails with the error of an unknown customer, [KeyError] with the
    target's key, because the similarity matrix has no column for it. *)
Lemma obter_recomendacoes_present_target_key_error :
  In 1 (index matriz_empate) /\
  obter_recomendacoes_ref 1 matriz_empate similaridade_sem_alvo 5 = Raises (KeyError 1).
Proof.
  split; [vm_compute; now left | vm_compute; reflexivity].
Qed.

Lemma obter_recomendacoes_zero_neighbours_witness :
  exists pc,
    obter_recomendacoes_ref 2 matriz_empate similaridade_empate 0 = Returns (pc, [], []) /\
    NoDup pc /\
    (forall p, In p pc <-> comprou matriz_empate 2 p = true).
Proof.
  refine (proj1 (obter_recomendacoes_zero_neighbours
                   insertion_kernel (fun l => l) (fun l => l) same_order_perm
                   2 matriz_empate similaridade_empate _) _).
  - vm_compute. right. now left.
  - vm_compute. right. now left.
Defined.

(** C10, as stated, fails: customer 1 is a row of the matrix and
    [n_vizinhos] is 0, yet the call raises [KeyError], because the
    similarity matrix has no column for the target. *)
Lemma obter_recomendacoes_zero_neighbours_key_error :
  In 1 (index matriz_empate) /\
  ~ (exists res,
       obter_recomendacoes_ref 1 matriz_empate similaridade_sem_alvo 0 = Returns res) /\
  obter_recomendacoes_ref 1 matriz_empate similaridade_sem_alvo 0 = Raises (KeyError 1).
Proof.
  split; [vm_compute; now left|]. split.
  - intros [res H]. vm_compute in H. discriminate H.
  - vm_compute. reflexivity.
Qed.

(** C1 fails on the code: customers 1 and 2 bought the same single product,
    so every similarity is 1; for the target 2 the sorted column starts with
    customer 1, the slice [[1:n_vizinhos+1]] drops that entry, and the
    neighbour ranking is the target itself, with customer 1 left out. *)
Theorem obter_recomendacoes_ranking_keeps_target :
  obter_recomendacoes_ref 2 matriz_iguais similaridade_iguais 5 =
  Returns ([10], [(2, 1%Q)], []).
Proof. vm_compute. reflexivity. Qed.

(** ** [calcular_similaridades] *)

Section CosineFrame.
Context {A : Type} (ar : Arith A).

Lemma check_array_Returns (X X' : list (list A)) :
  check_array ar X = Returns X' -> X' = X.
Proof.
  unfold check_array. destruct X as [|r t]; [discriminate|].
  destruct r as [|x r]; [discriminate|].
  destruct (forallb (forallb (is_finite ar)) ((x :: r) :: t)); [|discriminate].
  intro H. now inversion H.
Qed.

Lemma nth_enumerate {B : Type} (l : list B) (a : nat) (d : B) :
  (a < length l)%nat ->
  nth a (combine (seq 0 (length l)) l) (0%nat, d) = (a, nth a l d).
Proof.
  intro H. rewrite combine_nth by apply length_seq.
  now rewrite seq_nth.
Qed.

(** The entry of the product at two positions: computed from the two rows
    when it lies on or above the diagonal, copied from its mirror image
    when it lies below. *)
Lemma gram_nth (Xn : list (list A)) (d : A) (a b : nat) :
  (a < length Xn)%nat -> (b < length Xn)%nat ->
  nth b (nth a (gram ar Xn) []) d =
  if (a <=? b)%nat
  then inner ar a b (nth a Xn []) (nth b Xn [])
  else inner ar b a (nth b Xn []) (nth a Xn []).
Proof.
  intros Ha Hb. unfold gram.
  set (rows := combine (seq 0 (length Xn)) Xn).
  assert (Hlen : length rows = length Xn).
  { unfold rows. rewrite length_combine, length_seq. apply Nat.min_id. }
  set (f := fun iu : nat * list A =>
              map (fun jv : nat * list A =>
                     if (fst iu <=? fst jv)%nat
                     then inner ar (fst iu) (fst jv) (snd iu) (snd jv)
                     else inner ar (fst jv) (fst iu) (snd jv) (snd iu)) rows).
  rewrite (nth_indep (map f rows) [] (f (0%nat, []))) by (rewrite length_map; lia).
  rewrite map_nth. unfold f at 1.
  set (g := fun jv : nat * list A =>
              if (fst (nth a rows (0%nat, [])) <=? fst jv)%nat
              then inner ar (fst (nth a rows (0%nat, []))) (fst jv)
                         (snd (nth a rows (0%nat, []))) (snd jv)
              else inner ar (fst jv) (fst (nth a rows (0%nat, [])))
                         (snd jv) (snd (nth a rows (0%nat, [])))).
  rewrite (nth_indep (map g rows) d (g (0%nat, []))) by (rewrite length_map; lia).
  rewrite map_nth. unfold g, rows.
  rewrite !nth_enumerate by assumption. reflexivity.
Qed.

(** The entry at two customers of the matrix comes from their normalised
    rows and their positions; outside the index the frame has nothing to
    show. *)
Lemma calcular_similaridades_cell (matriz sim : DataFrame A) :
  calcular_similaridades ar matriz = Returns sim ->
  index sim = index matriz /\
  columns sim = index matriz /\
  forall i j,
    cell sim i j =
    match position i (index matriz), position j (index matriz) with
    | Some a, Some b =>
        if (a <=? b)%nat
        then inner ar a b (normalize_row ar (row_values matriz i))
                          (normalize_row ar (row_values matriz j))
        else inner ar b a (normalize_row ar (row_values matriz j))
                          (normalize_row ar (row_values matriz i))
    | _, _ => zero ar
    end.
Proof.
  unfold calcular_similaridades, cosine_similarity. intro H.
  destruct (check_array ar (to_numpy matriz)) as [X'|e] eqn:E; simpl in H;
    [|discriminate].
  apply check_array_Returns in E. subst X'. inversion H; subst; clear H. simpl.
  split; [reflexivity|]. split; [reflexivity|]. intros i j.
  destruct (position i (index matriz)) as [a|] eqn:Ei; [|reflexivity].
  destruct (position j (index matriz)) as [b|] eqn:Ej; [|reflexivity].
  destruct (position_lt _ _ _ Ei) as [Ha _].
  destruct (position_lt _ _ _ Ej) as [Hb _].
  unfold to_numpy. rewrite (map_map (row_values matriz) (normalize_row ar)).
  rewrite gram_nth by (rewrite length_map; assumption).
  rewrite (position_nth (fun r => normalize_row ar (row_values matriz r)) [] i _ a Ei).
  rewrite (position_nth (fun r => normalize_row ar (row_values matriz r)) [] j _ b Ej).
  reflexivity.
Qed.

(** The frame [calcular_similaridades] returns is a frame over the
    customers of the matrix, and stays one when its cells are converted. *)
Lemma calcular_similaridades_frame {B : Type} (g : A -> B) (matriz sim : DataFrame A) :
  calcular_similaridades ar matriz = Returns sim ->
  similarity_frame_of matriz sim /\ similarity_frame_of matriz (astype g sim).
Proof.
  intro H. destruct (calcular_similaridades_cell matriz sim H) as [Hi [Hc _]].
  split; split; assumption.
Qed.

End CosineFrame.

(** C8: the similarity matrix computed by [calcular_similaridades] is
    symmetric, entry by entry and bit for bit: sim(i, j) = sim(j, i) for
    every pair of customers, whatever the arithmetic and whatever the
    order in which the platform's kernels add up the products; the entries
    below the diagonal are copies of those above it. *)
Theorem calcular_similaridades_symmetric :
  forall (A : Type) (ar : Arith A) (matriz sim : DataFrame A),
    calcular_similaridades ar matriz = Returns sim ->
    forall i j, cell sim i j = cell sim j i.
Proof.
  intros A ar matriz sim H i j.
  destruct (calcular_similaridades_cell ar matriz sim H) as [_ [_ Hc]].
  rewrite (Hc i j), (Hc j i).
  destruct (position i (index matriz)) as [a|] eqn:Ei;
    destruct (position j (index matriz)) as [b|] eqn:Ej; try reflexivity.
  destruct (Nat.leb_spec a b) as [Hab|Hab]; destruct (Nat.leb_spec b a) as [Hba|Hba];
    try reflexivity; try lia.
  assert (a = b) by lia. subst b.
  destruct (position_lt _ _ _ Ei) as [_ Hi]. destruct (position_lt _ _ _ Ej) as [_ Hj].
  assert (Hij : i = j) by congruence. now rewrite Hij.
Qed.

(** Customers 1, 2 and 3 of [vendas_empate] in binary64: the entries at
    (1, 2) and (2, 1) are the same non-zero number. *)
Lemma calcular_similaridades_symmetric_witness :
  exists sim,
    calcular_similaridades f64 (astype float_of_Q matriz_empate) = Returns sim /\
    cell sim 1 2 = cell sim 2 1 /\
    cell sim 2 3 = cell sim 3 2 /\
    PrimFloat.ltb 0%float (cell sim 1 2) = true /\
    PrimFloat.ltb 0%float (cell sim 2 3) = true.
Proof.
  eexists. split; [reflexivity|]. split; [|split; [|split]].
  - apply (calcular_similaridades_symmetric float f64
             (astype float_of_Q matriz_empate) _ eq_refl).
  - apply (calcular_similaridades_symmetric float f64
             (astype float_of_Q matriz_empate) _ eq_refl).
  - vm_compute. reflexivity.
  - vm_compute. reflexivity.
Defined.

(** *** binary64 *)



(** **** Counting binary digits *)










(** **** The rounding step *)








(** **** Squares, sums, square roots and quotients *)










(** **** Rows *)












(** ** The program on concrete sales tables *)

(** The frames of the failing input of C1 are what the program computes
    from the sales table [vendas_iguais]: in binary64 every cosine is 1.0. *)
Lemma similaridade_iguais_all_ones :
  exists sim,
    calcular_similaridades f64 (astype float_of_Q matriz_iguais) = Returns sim /\
    to_numpy sim = [[1%float; 1%float]; [1%float; 1%float]] /\
    to_numpy similaridade_iguais = [[1%Q; 1%Q]; [1%Q; 1%Q]].
Proof.
  eexists. split; [reflexivity|]. split; vm_compute; reflexivity.
Qed.

(** The same run from the sales table: the target 2 gets itself as its only
    neighbour. *)
Lemma main_core_ranking_keeps_target :
  main_core_ref vendas_iguais 2 5 = Returns ([10], [(2, 1%Q)], []).
Proof. vm_compute. reflexivity. Qed.

(** Whatever order the sort gives to equal values, one of the two customers
    is returned as its own only neighbour: both similarity columns hold the
    same values, so the sort puts the same customer first for both targets,
    and the slice drops that one. *)
Lemma obter_recomendacoes_keeps_target_any_sort
    (argsort_kernel : Series Q -> Series Q)
    (iter_set iter_diff : list key -> list key) :
  (forall s, Permutation s (argsort_kernel s)) ->
  exists c pc recs,
    (c = 1 \/ c = 2) /\
    obter_recomendacoes argsort_kernel iter_set iter_diff
      c matriz_iguais similaridade_iguais 5 = Returns (pc, [(c, 1%Q)], recs).
Proof.
  intro Hk.
  assert (Hframe : similarity_frame_of matriz_iguais similaridade_iguais)
    by (split; vm_compute; reflexivity).
  assert (Hcol : forall c, c = 1 \/ c = 2 ->
            getitem similaridade_iguais c = Returns [(1, 1%Q); (2, 1%Q)]).
  { intros c [->| ->]; vm_compute; reflexivity. }
  assert (Hidx : forall c, c = 1 \/ c = 2 -> In c (index matriz_iguais)).
  { intros c [->| ->]; vm_compute; tauto. }
  assert (Hrun : forall c sorted, c = 1 \/ c = 2 ->
            argsort_kernel [(2, 1%Q); (1, 1%Q)] = sorted ->
            exists pc recs,
              obter_recomendacoes argsort_kernel iter_set iter_diff
                c matriz_iguais similaridade_iguais 5 =
              Returns (pc, py_slice 1 (5 + 1) (rev sorted), recs)).
  { intros c sorted Hc Hs.
    destruct (obter_recomendacoes_succeeds argsort_kernel iter_set iter_diff Hk
                c matriz_iguais similaridade_iguais 5 (Hidx c Hc) Hframe)
      as [[[pc sims'] recs] E].
    destruct (obter_recomendacoes_Returns _ _ _ _ _ _ _ _ _ _ E)
      as [_ [coluna [d [Hg [Hs' _]]]]].
    rewrite (Hcol c Hc) in Hg. inversion Hg; subst coluna.
    unfold sort_values_desc in Hs'.
    change (rev [(1, 1%Q); (2, 1%Q)]) with [(2, 1%Q); (1, 1%Q)] in Hs'.
    rewrite Hs in Hs'. subst sims'. now exists pc, recs. }
  destruct (Permutation_length_2_inv (Hk [(2, 1%Q); (1, 1%Q)])) as [E|E].
  - destruct (Hrun 2 _ (or_intror eq_refl) E) as [pc [recs H]].
    exists 2, pc, recs. split; [now right | exact H].
  - destruct (Hrun 1 _ (or_introl eq_refl) E) as [pc [recs H]].
    exists 1, pc, recs. split; [now left | exact H].
Qed.

(** The scenario of the specification (A, B, C = 1, 2, 3; target A, one
    neighbour): the purchased set is {P1}, the ranking is [(B, 0.894...)]
    and the only recommendation is P2, with B's score and supporter B. *)
Lemma main_core_cenario :
  main_core_ref vendas_cenario 1 1 =
  Returns ([1],
           [(2, (8056283928194521 # 9007199254740992)%Q)],
           [(2, {| score := (8056283928194521 # 9007199254740992)%Q;
                   vizinhos := [2] |})]).
Proof. vm_compute. reflexivity. Qed.

(** The similarity matrix of the scenario in binary64: sim(A,B) is
    0.8944271909999159, the entries with C are 0, and the diagonal entry of
    B (row [2, 1, 0]) is 0.9999999999999999, one unit in the last place
    below 1. *)
Lemma similaridade_cenario :
  exists sim,
    calcular_similaridades f64 (astype float_of_Q (pivot_table vendas_cenario 0%Q)) =
      Returns sim /\
    to_numpy sim =
      [ [1%float; 0x1.c9f25c5bfedd9p-1%float; 0%float];
        [0x1.c9f25c5bfedd9p-1%float; 0x1.fffffffffffffp-1%float; 0%float];
        [0%float; 0%float; 1%float] ].
Proof.
  eexists. split; [reflexivity|]. vm_compute. reflexivity.
Qed.

(** On an empty sales table the builder returns the empty matrix and the
    run stops one step later, in scikit-learn's input validation. *)
Lemma main_core_empty :
  main_core_ref [] 1 5 = Raises ValueError.
Proof. vm_compute. reflexivity. Qed.

(** ** The neighbour ranking when the target sorts first *)

Lemma filter_of_perm {T : Type} (keep : T -> bool) (xs ys : list T)
    (Hxy : Permutation xs ys) :
  Permutation (filter keep xs) (filter keep ys).
Proof.
  induction Hxy as [|x l l' _ IH|x y l|l l' l'' _ IH1 _ IH2]; simpl.
  - constructor.
  - destruct (keep x); [now constructor | assumption].
  - destruct (keep x), (keep y); try apply Permutation_refl. apply perm_swap.
  - eapply perm_trans; eassumption.
Qed.

Lemma py_slice_after_head {A : Type} (n : Z) (h : A) (rest : list A) :
  0 <= n -> py_slice 1 (n + 1) (h :: rest) = firstn (Z.to_nat n) rest.
Proof.
  intro Hn. unfold py_slice, slice_bound.
  assert (H1 : (1 <? 0) = false) by reflexivity. rewrite H1.
  assert (H2 : (n + 1 <? 0) = false) by (apply Z.ltb_ge; lia). rewrite H2.
  cbv zeta. simpl length. rewrite Nat2Z.inj_succ.
  replace (Z.min 1 (Z.succ (Z.of_nat (length rest)))) with 1 by lia.
  change (Z.to_nat 1) with 1%nat. simpl skipn.
  destruct (Z.le_ge_cases n (Z.of_nat (length rest))) as [Hle|Hge].
  - f_equal. lia.
  - rewrite !firstn_all2; [reflexivity | lia | lia].
Qed.

Section Ranking.
Variable argsort_kernel : Series Q -> Series Q.
Hypothesis kernel_perm : forall s, Permutation s (argsort_kernel s).
Hypothesis kernel_sorted :
  forall s, StronglySorted (fun a b => (snd a <= snd b)%Q) (argsort_kernel s).

Lemma sort_values_desc_perm (s : Series Q) :
  Permutation s (sort_values_desc argsort_kernel s).
Proof.
  unfold sort_values_desc.
  eapply perm_trans; [apply Permutation_rev|].
  eapply perm_trans; [apply kernel_perm|]. apply Permutation_rev.
Qed.

Lemma sort_values_desc_sorted (s : Series Q) :
  StronglySorted (fun a b => (snd b <= snd a)%Q) (sort_values_desc argsort_kernel s).
Proof.
  unfold sort_values_desc.
  apply (StronglySorted_rev (fun a b : key * Q => (snd a <= snd b)%Q)).
  apply kernel_sorted.
Qed.

(** If the target's own similarity is strictly the largest entry of its
    column, the line-110 slice does what its comment says: the ranking is
    the other customers, by similarity descending, cut to [n_vizinhos]. *)
Lemma similares_when_target_first (df : DataFrame Q) (c : key) (n : Z) :
  NoDup (index df) ->
  In c (index df) ->
  (forall r, In r (index df) -> r <> c -> (cell df r c < cell df c c)%Q) ->
  0 <= n ->
  exists rest,
    Permutation rest
      (filter (fun e => negb (Z.eqb (fst e) c))
              (map (fun r => (r, cell df r c)) (index df))) /\
    StronglySorted (fun a b => (snd b <= snd a)%Q) rest /\
    py_slice 1 (n + 1)
      (sort_values_desc argsort_kernel (map (fun r => (r, cell df r c)) (index df)))
    = firstn (Z.to_nat n) rest.
Proof.
  intros Hnd Hc Hmax Hn.
  set (coluna := map (fun r => (r, cell df r c)) (index df)).
  pose proof (sort_values_desc_perm coluna) as Hp.
  pose proof (sort_values_desc_sorted coluna) as Hs.
  assert (Hcol : forall e, In e coluna -> In (fst e) (index df) /\ snd e = cell df (fst e) c).
  { intros e He. apply in_map_iff in He. destruct He as [r [<- Hr]]. now split. }
  assert (Hself : In (c, cell df c c) coluna).
  { apply in_map_iff. now exists c. }
  assert (Hndc : NoDup coluna).
  { apply (NoDup_map_inv fst). unfold coluna. rewrite map_map. simpl.
    now rewrite map_id. }
  destruct (sort_values_desc argsort_kernel coluna) as [|h rest] eqn:ES.
  { apply (Permutation_in _ Hp) in Hself. contradiction. }
  assert (Hh : h = (c, cell df c c)).
  { destruct (Permutation_in _ Hp Hself) as [He|Hin]; [assumption|].
    apply StronglySorted_inv in Hs. destruct Hs as [_ Hall].
    rewrite Forall_forall in Hall. specialize (Hall _ Hin). simpl in Hall.
    assert (Hhc : In h coluna).
    { apply (Permutation_in _ (Permutation_sym Hp)). now left. }
    destruct (Hcol _ Hhc) as [Hidx Hval].
    destruct (Z.eq_dec (fst h) c) as [E|E].
    - destruct h as [r x]. simpl in *. subst. reflexivity.
    - specialize (Hmax _ Hidx E). rewrite <- Hval in Hmax.
      elim (Qlt_not_le _ _ Hmax Hall). }
  subst h. exists rest. split; [|split].
  - assert (Hrest : forall e, In e rest -> negb (Z.eqb (fst e) c) = true).
    { intros e He. apply negb_true_iff. apply Z.eqb_neq. intro E.
      assert (HeS : In e coluna).
      { apply (Permutation_in _ (Permutation_sym Hp)). now right. }
      destruct (Hcol _ HeS) as [_ Hval].
      assert (e = (c, cell df c c)).
      { destruct e as [r x]. simpl in *. subst. reflexivity. }
      subst e. apply (Permutation_NoDup Hp) in Hndc.
      inversion Hndc. contradiction. }
    pose proof (filter_of_perm (fun e => negb (Z.eqb (fst e) c)) _ _ Hp) as Hf.
    simpl in Hf. rewrite Z.eqb_refl in Hf. simpl in Hf.
    rewrite (forallb_filter_id _ rest) in Hf.
    + now apply Permutation_sym.
    + apply forallb_forall. exact Hrest.
  - apply StronglySorted_inv in Hs. tauto.
  - now apply py_slice_after_head.
Qed.

End Ranking.

(** ** The tie of C6 under any sort and any set order *)

Section Empate.
Variable argsort_kernel : Series Q -> Series Q.
Variable iter_set : list key -> list key.
Variable iter_diff : list key -> list key.
Hypothesis kernel_perm : forall s, Permutation s (argsort_kernel s).
Hypothesis kernel_sorted :
  forall s, StronglySorted (fun a b => (snd a <= snd b)%Q) (argsort_kernel s).
Hypothesis iter_set_perm : forall l, Permutation l (iter_set l).
Hypothesis iter_diff_perm : forall l, Permutation l (iter_diff l).

Lemma iter_single (f : list key -> list key) (x : key) :
  (forall l, Permutation l (f l)) -> f [x] = [x].
Proof. intro H. apply Permutation_length_1_inv, H. Qed.

(** A neighbour who bought product 1, which the target has, and one other
    product contributes exactly that other product. *)
Lemma produtos_novos_single (x : key) :
  x <> 1 ->
  iter_diff (filter (fun p => negb (mem p [1])) (iter_set [1; x])) = [x].
Proof.
  intro Hx.
  assert (Hm : (x =? 1) = false) by (now apply Z.eqb_neq).
  destruct (Permutation_length_2_inv (iter_set_perm [1; x])) as [E|E];
    rewrite E; unfold mem; simpl; rewrite Hm; simpl;
    now apply iter_single.
Qed.

(** The run on a matrix whose customers 2 and 3 hold product 1 and one
    product more each, for a given ranking [a, b] of the two at one score. *)
Lemma coletar_two_neighbours (matriz : DataFrame Q) (a b pa pb : key) (s : Q) :
  loc matriz a = Returns [(1, 1%Q); (3, if Z.eqb pa 3 then 1%Q else 0%Q);
                          (5, if Z.eqb pa 5 then 1%Q else 0%Q)] ->
  loc matriz b = Returns [(1, 1%Q); (3, if Z.eqb pb 3 then 1%Q else 0%Q);
                          (5, if Z.eqb pb 5 then 1%Q else 0%Q)] ->
  (pa = 5 /\ pb = 3) ->
  coletar iter_set iter_diff matriz [1] [(a, s); (b, s)] [] =
  Returns [(5, {| score := s; vizinhos := [a] |});
           (3, {| score := s; vizinhos := [b] |})].
Proof.
  intros Ha Hb [-> ->]. simpl in Ha, Hb.
  unfold coletar, produtos_de. rewrite Ha, Hb. cbn [bind].
  change (nodup Z.eq_dec (positive_labels [(1, 1%Q); (3, 0%Q); (5, 1%Q)]))
    with [1; 5].
  change (nodup Z.eq_dec (positive_labels [(1, 1%Q); (3, 1%Q); (5, 0%Q)]))
    with [1; 3].
  rewrite !produtos_novos_single by discriminate.
  reflexivity.
Qed.

(** Whatever order the sort gives to the two tied neighbours, one of the
    two sales tables yields the tied products as 5, 3. *)
Lemma obter_recomendacoes_tie_any_sort :
  exists vendas,
    (vendas = vendas_empate \/ vendas = vendas_empate_troca) /\
    exists pc similares r5 r3,
      obter_recomendacoes argsort_kernel iter_set iter_diff 1
        (pivot_table vendas 0%Q) (similaridade_de (pivot_table vendas 0%Q)) 5 =
      Returns (pc, similares, [(5, r5); (3, r3)]) /\
      score r5 = score r3.
Proof.
  destruct (similares_when_target_first argsort_kernel kernel_perm kernel_sorted
              similaridade_empate 1 5) as [rest [Hp [_ Hslice]]].
  { vm_compute. repeat constructor; simpl; intuition discriminate. }
  { vm_compute. tauto. }
  { intros r Hr Hne. vm_compute in Hr.
    destruct Hr as [<-|[<-|[<-|[]]]]; [now elim Hne | vm_compute; reflexivity
                                      | vm_compute; reflexivity]. }
  { discriminate. }
  assert (Hcol : map (fun r => (r, cell similaridade_empate r 1))
                     (index similaridade_empate) =
                 [(1, 1%Q); (2, score_empate); (3, score_empate)])
    by (vm_compute; reflexivity).
  assert (Hcol' : map (fun r => (r, cell (similaridade_de (pivot_table vendas_empate_troca 0%Q)) r 1))
                      (index (similaridade_de (pivot_table vendas_empate_troca 0%Q))) =
                  [(1, 1%Q); (2, score_empate); (3, score_empate)])
    by (vm_compute; reflexivity).
  rewrite Hcol in Hp, Hslice.
  change (filter (fun e : key * Q => negb (fst e =? 1))
                 [(1, 1%Q); (2, score_empate); (3, score_empate)])
    with [(2, score_empate); (3, score_empate)] in Hp.
  change (Z.to_nat 5) with 5%nat in Hslice.
  apply Permutation_sym in Hp.
  destruct (Permutation_length_2_inv Hp) as [E|E]; subst rest;
    simpl firstn in Hslice.
  - exists vendas_empate. split; [now left|].
    exists [1], [(2, score_empate); (3, score_empate)],
      {| score := score_empate; vizinhos := [2] |},
      {| score := score_empate; vizinhos := [3] |}.
    split; [|reflexivity].
    unfold obter_recomendacoes.
    replace (produtos_de iter_set (pivot_table vendas_empate 0%Q) 1)
      with (Returns (A := list key) [1]).
    2:{ unfold produtos_de.
        change (loc (pivot_table vendas_empate 0%Q) 1)
          with (Returns [(1, 1%Q); (3, 0%Q); (5, 0%Q)]).
        cbn [bind].
        change (nodup Z.eq_dec (positive_labels [(1, 1%Q); (3, 0%Q); (5, 0%Q)]))
          with [1].
        now rewrite iter_single. }
    cbn [bind].
    rewrite getitem_column by (vm_compute; tauto). cbn [bind].
    fold matriz_empate. fold similaridade_empate. rewrite Hcol, Hslice.
    rewrite (coletar_two_neighbours matriz_empate 2 3 5 3 score_empate);
      [reflexivity | reflexivity | reflexivity | now split].
  - exists vendas_empate_troca. split; [now right|].
    exists [1], [(3, score_empate); (2, score_empate)],
      {| score := score_empate; vizinhos := [3] |},
      {| score := score_empate; vizinhos := [2] |}.
    split; [|reflexivity].
    unfold obter_recomendacoes.
    replace (produtos_de iter_set (pivot_table vendas_empate_troca 0%Q) 1)
      with (Returns (A := list key) [1]).
    2:{ unfold produtos_de.
        change (loc (pivot_table vendas_empate_troca 0%Q) 1)
          with (Returns [(1, 1%Q); (3, 0%Q); (5, 0%Q)]).
        cbn [bind].
        change (nodup Z.eq_dec (positive_labels [(1, 1%Q); (3, 0%Q); (5, 0%Q)]))
          with [1].
        now rewrite iter_single. }
    cbn [bind].
    rewrite getitem_column by (vm_compute; tauto). cbn [bind].
    rewrite Hcol', Hslice.
    rewrite (coletar_two_neighbours (pivot_table vendas_empate_troca 0%Q)
               3 2 5 3 score_empate);
      [reflexivity | reflexivity | reflexivity | now split].
Qed.

End Empate.

(** * More of the program *)

(** ** [criar_matriz_interacao]: the labels and the sign of the cells *)

Lemma insert_key_sorted (k : key) (l : list key) :
  Sorted Z.lt l -> Sorted Z.lt (insert_key k l).
Proof.
  induction l as [|x r IH]; simpl; intro Hs.
  - repeat constructor.
  - destruct (Z.compare_spec k x) as [->|Hlt|Hgt].
    + assumption.
    + constructor; [assumption | now constructor].
    + inversion Hs as [|? ? Hr Hhd]; subst.
      constructor; [now apply IH|].
      destruct r as [|y t]; simpl.
      * now constructor.
      * destruct (Z.compare_spec k y) as [->|Hlt'|Hgt'].
        -- assumption.
        -- now constructor.
        -- inversion Hhd; subst. now constructor.
Qed.

Lemma sorted_unique_sorted (l : list key) : StronglySorted Z.lt (sorted_unique l).
Proof.
  apply Sorted_StronglySorted.
  - intros a b c. apply Z.lt_trans.
  - induction l as [|x r IH]; simpl; [constructor | now apply insert_key_sorted].
Qed.

Lemma increasing_NoDup (l : list key) : StronglySorted Z.lt l -> NoDup l.
Proof.
  induction 1 as [|a l _ IH Hall]; constructor; [|assumption].
  intro Hin. rewrite Forall_forall in Hall. specialize (Hall _ Hin). lia.
Qed.

(** X1: the rows of the matrix are exactly the customers that occur in the
    sales table and its columns exactly the products that occur in it, each
    listed once and in strictly increasing order of the key. *)
Theorem criar_matriz_interacao_labels :
  forall (df_vendas : list Venda) (matriz : DataFrame Q),
    criar_matriz_interacao df_vendas = Returns matriz ->
    (forall c, In c (index matriz) <->
               exists v, In v df_vendas /\ CustomerKey v = c) /\
    (forall p, In p (columns matriz) <->
               exists v, In v df_vendas /\ ProductKey v = p) /\
    StronglySorted Z.lt (index matriz) /\
    StronglySorted Z.lt (columns matriz).
Proof.
  intros df m H. inversion H; subst; clear H. simpl.
  split; [|split; [|split]].
  - intro c. rewrite sorted_unique_In, in_map_iff.
    split; intros [v Hv]; exists v; tauto.
  - intro p. rewrite sorted_unique_In, in_map_iff.
    split; intros [v Hv]; exists v; tauto.
  - apply sorted_unique_sorted.
  - apply sorted_unique_sorted.
Qed.

Lemma criar_matriz_interacao_labels_witness :
  (forall c, In c (index matriz_empate) <->
             exists v, In v vendas_empate /\ CustomerKey v = c) /\
  StronglySorted Z.lt (columns matriz_empate).
Proof.
  destruct (criar_matriz_interacao_labels vendas_empate matriz_empate eq_refl)
    as [H1 [_ [_ H4]]].
  split; assumption.
Defined.

Lemma Qsum_nonneg (l : list Q) :
  (forall q, In q l -> (0 <= q)%Q) -> (0 <= Qsum l)%Q.
Proof.
  induction l as [|a t IH]; simpl; intro H.
  - apply Qle_refl.
  - rewrite <- (Qplus_0_r 0). apply Qplus_le_compat.
    + apply H. now left.
    + apply IH. intros q Hq. apply H. now right.
Qed.

Lemma Qsum_pos (l : list Q) :
  (forall q, In q l -> (0 <= q)%Q) ->
  ((0 < Qsum l)%Q <-> exists q, In q l /\ (0 < q)%Q).
Proof.
  induction l as [|a t IH]; simpl; intro H.
  - split; [intro Hlt; discriminate Hlt | intros [q [[] _]]].
  - assert (Ha : (0 <= a)%Q) by (apply H; now left).
    assert (Ht : forall q, In q t -> (0 <= q)%Q) by (intros q Hq; apply H; now right).
    pose proof (Qsum_nonneg t Ht) as Hs. split.
    + intro Hlt. destruct (Qlt_le_dec 0 a) as [Hpos|Hle].
      * exists a. split; [now left | assumption].
      * assert (Hz : (a == 0)%Q) by (apply Qle_antisym; assumption).
        rewrite Hz, Qplus_0_l in Hlt. apply (IH Ht) in Hlt.
        destruct Hlt as [q [Hq Hpos]]. exists q. split; [now right | assumption].
    + intros [q [[<-|Hq] Hpos]].
      * rewrite <- (Qplus_0_r 0). now apply Qplus_lt_le_compat.
      * rewrite <- (Qplus_0_r 0). rewrite (Qplus_comm a).
        apply Qplus_lt_le_compat; [|assumption].
        apply (IH Ht). now exists q.
Qed.

Lemma mean_sign (qs : list Q) :
  qs <> [] ->
  ((0 <= Qsum qs)%Q -> (0 <= mean qs)%Q) /\
  ((0 < mean qs)%Q <-> (0 < Qsum qs)%Q).
Proof.
  intro Hne.
  assert (Hn : (0 < inject_Z (Z.of_nat (length qs)))%Q).
  { destruct qs as [|q t]; [now elim Hne|]. unfold Qlt. simpl. lia. }
  pose proof (mean_times_length qs Hne) as Hm. split.
  - intro Hs. unfold mean. apply Qle_shift_div_l; [assumption|].
    now rewrite Qmult_0_l.
  - split; intro H.
    + rewrite <- Hm. rewrite <- (Qmult_0_l (inject_Z (Z.of_nat (length qs)))).
      apply Qmult_lt_compat_r; assumption.
    + unfold mean. apply Qlt_shift_div_l; [assumption|].
      now rewrite Qmult_0_l.
Qed.

Lemma pivot_table_cell_sign (df : list Venda) :
  (forall v, In v df -> (0 <= TotalQtd v)%Q) ->
  forall c p,
    (0 <= cell (pivot_table df 0%Q) c p)%Q /\
    ((0 < cell (pivot_table df 0%Q) c p)%Q <->
     exists v, In v df /\ CustomerKey v = c /\ ProductKey v = p /\
               (0 < TotalQtd v)%Q).
Proof.
  intros Hnn c p. simpl.
  assert (Hg : forall q, In q (group df c p) <->
             exists v, In v df /\ CustomerKey v = c /\ ProductKey v = p /\ TotalQtd v = q).
  { intro q. unfold group. rewrite in_map_iff. split.
    - intros [v [Hq Hv]]. apply filter_In in Hv. destruct Hv as [Hv Hb].
      apply andb_true_iff in Hb. destruct Hb as [H1 H2].
      apply Z.eqb_eq in H1, H2. now exists v.
    - intros [v [Hv [H1 [H2 Hq]]]]. exists v. split; [assumption|].
      apply filter_In. split; [assumption|].
      apply andb_true_iff. split; now apply Z.eqb_eq. }
  assert (Hgn : forall q, In q (group df c p) -> (0 <= q)%Q).
  { intros q Hq. apply Hg in Hq. destruct Hq as [v [Hv [_ [_ <-]]]]. now apply Hnn. }
  destruct (group df c p) as [|q0 t] eqn:E.
  - split; [apply Qle_refl|]. split.
    + intro Hlt. discriminate Hlt.
    + intros [v [Hv [H1 [H2 _]]]].
      destruct (proj2 (Hg (TotalQtd v))) as [].
      now exists v.
  - assert (Hne : q0 :: t <> []) by discriminate.
    destruct (mean_sign (q0 :: t) Hne) as [Hs1 Hs2]. split.
    + apply Hs1. now apply Qsum_nonneg.
    + rewrite Hs2, (Qsum_pos _ Hgn). split.
      * intros [q [Hq Hpos]]. apply Hg in Hq.
        destruct Hq as [v [Hv [H1 [H2 <-]]]]. now exists v.
      * intros [v [Hv [H1 [H2 Hpos]]]]. exists (TotalQtd v). split; [|assumption].
        apply Hg. now exists v.
Qed.

(** X2: on a sales table without negative quantities no cell of the matrix
    is negative, and a cell is positive exactly when the table holds a record
    of that customer and product with a positive quantity; so the products a
    customer "purchased" ([> 0]) are those with such a record. *)
Theorem criar_matriz_interacao_positive_cells :
  forall (df_vendas : list Venda) (matriz : DataFrame Q),
    criar_matriz_interacao df_vendas = Returns matriz ->
    (forall v, In v df_vendas -> (0 <= TotalQtd v)%Q) ->
    forall c p,
      (0 <= cell matriz c p)%Q /\
      ((0 < cell matriz c p)%Q <->
       exists v, In v df_vendas /\ CustomerKey v = c /\ ProductKey v = p /\
                 (0 < TotalQtd v)%Q).
Proof.
  intros df m H Hnn c p. inversion H; subst; clear H.
  now apply pivot_table_cell_sign.
Qed.

Lemma criar_matriz_interacao_positive_cells_witness :
  (0 <= cell matriz_empate 2 5)%Q /\
  ((0 < cell matriz_empate 2 5)%Q <->
   exists v, In v vendas_empate /\ CustomerKey v = 2 /\ ProductKey v = 5 /\
             (0 < TotalQtd v)%Q).
Proof.
  apply (criar_matriz_interacao_positive_cells vendas_empate matriz_empate eq_refl).
  intros v Hv. simpl in Hv.
  repeat (destruct Hv as [<-|Hv]; [vm_compute; discriminate|]). contradiction.
Defined.

(** ** [obter_recomendacoes]: more on the slice of line 110 *)

Lemma py_slice_length {A : Type} (n : Z) (l : list A) :
  0 <= n -> length (py_slice 1 (n + 1) l) = Nat.min (Z.to_nat n) (length l - 1).
Proof.
  intro Hn. destruct l as [|h rest].
  - unfold py_slice. simpl. rewrite firstn_nil. simpl. now rewrite Nat.min_0_r.
  - rewrite py_slice_after_head by assumption.
    rewrite length_firstn. simpl. now rewrite Nat.sub_0_r.
Qed.

Lemma py_slice_negative {A : Type} (n : Z) (l : list A) :
  n <= -2 ->
  py_slice 1 (n + 1) l =
  skipn 1 (firstn (length l - Z.to_nat (- (n + 1))) l).
Proof.
  intro Hn. unfold py_slice, slice_bound.
  assert (H1 : (1 <? 0) = false) by reflexivity. rewrite H1.
  assert (H2 : (n + 1 <? 0) = true) by (apply Z.ltb_lt; lia). rewrite H2.
  cbv zeta. destruct l as [|h rest].
  - simpl. now rewrite firstn_nil.
  - simpl length. rewrite Nat2Z.inj_succ.
    replace (Z.min 1 (Z.succ (Z.of_nat (length rest)))) with 1 by lia.
    change (Z.to_nat 1) with 1%nat.
    rewrite firstn_skipn_comm.
    destruct (Z_le_gt_dec (n + 1 + Z.succ (Z.of_nat (length rest))) 0) as [Hle|Hgt].
    + replace (Z.to_nat (Z.max 0 (n + 1 + Z.succ (Z.of_nat (length rest))) - 1))
        with 0%nat by lia.
      replace (S (length rest) - Z.to_nat (- (n + 1)))%nat with 0%nat by lia.
      reflexivity.
    + f_equal. f_equal. lia.
Qed.

Lemma py_slice_1_0 {A : Type} (l : list A) : py_slice 1 (-1 + 1) l = [].
Proof.
  unfold py_slice, slice_bound. simpl Z.add.
  assert (H1 : (1 <? 0) = false) by reflexivity. rewrite H1.
  assert (H2 : (0 <? 0) = false) by reflexivity. rewrite H2.
  cbv zeta.
  replace (Z.to_nat (Z.min 0 (Z.of_nat (length l)) - Z.min 1 (Z.of_nat (length l))))
    with 0%nat by lia.
  reflexivity.
Qed.

Lemma py_slice_prefix {A : Type} (n n' : Z) (l : list A) :
  0 <= n <= n' ->
  exists mais, py_slice 1 (n' + 1) l = py_slice 1 (n + 1) l ++ mais.
Proof.
  intros [Hn Hn']. destruct l as [|h rest].
  - exists []. unfold py_slice. simpl. now rewrite !firstn_nil.
  - rewrite !py_slice_after_head by lia.
    exists (firstn (Z.to_nat n' - Z.to_nat n) (skipn (Z.to_nat n) rest)).
    rewrite <- (firstn_skipn (Z.to_nat n) rest) at 1.
    rewrite firstn_app.
    assert (Hlen : length (firstn (Z.to_nat n) rest) = Nat.min (Z.to_nat n) (length rest))
      by apply length_firstn.
    destruct (Nat.le_ge_cases (Z.to_nat n) (length rest)) as [Hle|Hge].
    + rewrite firstn_all2 by (rewrite Hlen; lia).
      f_equal. f_equal. rewrite Hlen. lia.
    + rewrite firstn_all2 by (rewrite Hlen; lia).
      rewrite (skipn_all2 rest) by lia. now rewrite !firstn_nil.
Qed.

Lemma StronglySorted_firstn {A : Type} (R : A -> A -> Prop) (n : nat) (l : list A) :
  StronglySorted R l -> StronglySorted R (firstn n l).
Proof.
  intro H. revert n. induction H as [|a l Hs IH Hall]; intros [|n]; simpl;
    try constructor.
  - apply IH.
  - rewrite Forall_forall in *. intros x Hx. apply Hall. eapply In_firstn; eassumption.
Qed.

Lemma StronglySorted_skipn {A : Type} (R : A -> A -> Prop) (n : nat) (l : list A) :
  StronglySorted R l -> StronglySorted R (skipn n l).
Proof.
  revert l. induction n as [|n IH]; intros l H; simpl; [assumption|].
  destruct l as [|a l]; [constructor|]. inversion H; subst. now apply IH.
Qed.

Lemma StronglySorted_py_slice {A : Type} (R : A -> A -> Prop) (a b : Z) (l : list A) :
  StronglySorted R l -> StronglySorted R (py_slice a b l).
Proof.
  intro H. unfold py_slice. now apply StronglySorted_firstn, StronglySorted_skipn.
Qed.

Lemma getitem_Returns {A : Type} (df : DataFrame A) (c : key) (coluna : Series A) :
  getitem df c = Returns coluna ->
  In c (columns df) /\ coluna = map (fun r => (r, cell df r c)) (index df).
Proof.
  unfold getitem. destruct (mem c (columns df)) eqn:E; [|discriminate].
  intro H. inversion H. split; [now apply mem_In | reflexivity].
Qed.

Lemma entrada_app (sup sup2 : Series Q) (r : Rec) :
  entrada sup = Some r ->
  exists r', entrada (sup ++ sup2) = Some r' /\
             (score r <= score r')%Q /\
             vizinhos r' = vizinhos r ++ map fst sup2.
Proof.
  destruct sup as [|[v s] t]; simpl; intro H; [discriminate|].
  inversion H; subst; clear H. eexists. split; [reflexivity|]. simpl.
  rewrite !map_app, fold_left_app. split; [|reflexivity].
  apply (proj2 (fold_py_max (map snd sup2) (fold_left py_max (map snd t) s))).
  now left.
Qed.


(** ** [obter_recomendacoes]: the whole result, and every way it fails *)

Section Resultado.
Variable argsort_kernel : Series Q -> Series Q.
Variable iter_set : list key -> list key.
Variable iter_diff : list key -> list key.
Hypothesis kernel_perm : forall s, Permutation s (argsort_kernel s).
Hypothesis kernel_sorted :
  forall s, StronglySorted (fun a b => (snd a <= snd b)%Q) (argsort_kernel s).
Hypothesis iter_set_perm : forall l, Permutation l (iter_set l).
Hypothesis iter_diff_perm : forall l, Permutation l (iter_diff l).

Lemma obter_recomendacoes_coluna (cliente_id : key)
    (matriz df_similaridade : DataFrame Q) (n_vizinhos : Z)
    (pc : list key) (similares : Series Q) (recs : dict) :
  obter_recomendacoes argsort_kernel iter_set iter_diff
    cliente_id matriz df_similaridade n_vizinhos = Returns (pc, similares, recs) ->
  similares =
  py_slice 1 (n_vizinhos + 1)
    (sort_values_desc argsort_kernel
       (map (fun r => (r, cell df_similaridade r cliente_id)) (index df_similaridade))).
Proof.
  intro H. apply obter_recomendacoes_Returns in H.
  destruct H as [_ [coluna [d [Hcol [Hsim _]]]]].
  apply getitem_Returns in Hcol. destruct Hcol as [_ ->]. exact Hsim.
Qed.

(** X5: for a non-negative [n_vizinhos], the neighbour ranking returned by
    [obter_recomendacoes] has [min(n_vizinhos, len(df_similaridade) - 1)]
    entries, lists them by similarity descending, and each entry is a row
    label of [df_similaridade] with the value of that row in the target's
    column. *)
Theorem obter_recomendacoes_ranking_shape :
  forall cliente_id matriz df_similaridade n_vizinhos pc similares recs,
    obter_recomendacoes argsort_kernel iter_set iter_diff
      cliente_id matriz df_similaridade n_vizinhos = Returns (pc, similares, recs) ->
    0 <= n_vizinhos ->
    length similares =
      Nat.min (Z.to_nat n_vizinhos) (length (index df_similaridade) - 1) /\
    StronglySorted (fun a b => (snd b <= snd a)%Q) similares /\
    (forall v s, In (v, s) similares ->
       In v (index df_similaridade) /\ s = cell df_similaridade v cliente_id).
Proof.
  intros c matriz sim n pc similares recs H Hn.
  apply obter_recomendacoes_coluna in H. subst similares.
  set (coluna := map (fun r => (r, cell sim r c)) (index sim)).
  split; [|split].
  - rewrite py_slice_length by assumption.
    rewrite <- (Permutation_length (sort_values_desc_perm argsort_kernel kernel_perm coluna)).
    unfold coluna. now rewrite length_map.
  - apply StronglySorted_py_slice.
    apply (sort_values_desc_sorted argsort_kernel kernel_sorted).
  - intros v s Hin. apply py_slice_incl in Hin.
    apply (Permutation_in _
             (Permutation_sym (sort_values_desc_perm argsort_kernel kernel_perm coluna)))
      in Hin.
    unfold coluna in Hin. apply in_map_iff in Hin.
    destruct Hin as [r [E Hr]]. inversion E; subst. now split.
Qed.

(** X6: when the target's own similarity is strictly the largest value of
    its column (and the row labels are distinct), the ranking returned by
    [obter_recomendacoes] does not hold the target: it is the other
    customers by similarity descending, cut to [n_vizinhos], and all of
    them when [n_vizinhos] is at least their number. *)
Theorem obter_recomendacoes_ranking_when_target_first :
  forall cliente_id matriz df_similaridade n_vizinhos pc similares recs,
    obter_recomendacoes argsort_kernel iter_set iter_diff
      cliente_id matriz df_similaridade n_vizinhos = Returns (pc, similares, recs) ->
    NoDup (index df_similaridade) ->
    In cliente_id (index df_similaridade) ->
    (forall r, In r (index df_similaridade) -> r <> cliente_id ->
       (cell df_similaridade r cliente_id < cell df_similaridade cliente_id cliente_id)%Q) ->
    0 <= n_vizinhos ->
    ~ In cliente_id (map fst similares) /\
    exists outros,
      Permutation outros
        (map (fun r => (r, cell df_similaridade r cliente_id))
             (filter (fun r => negb (Z.eqb r cliente_id)) (index df_similaridade))) /\
      StronglySorted (fun a b => (snd b <= snd a)%Q) outros /\
      similares = firstn (Z.to_nat n_vizinhos) outros /\
      ((length (index df_similaridade) - 1 <= Z.to_nat n_vizinhos)%nat ->
       similares = outros).
Proof.
  intros c matriz sim n pc similares recs H Hnd Hc Hmax Hn.
  apply obter_recomendacoes_coluna in H.
  destruct (similares_when_target_first argsort_kernel kernel_perm kernel_sorted
              sim c n Hnd Hc Hmax Hn) as [rest [Hperm [Hsort Hslice]]].
  rewrite Hslice in H. clear Hslice.
  assert (Hfm : filter (fun e : key * Q => negb (Z.eqb (fst e) c))
                  (map (fun r => (r, cell sim r c)) (index sim)) =
                map (fun r => (r, cell sim r c))
                  (filter (fun r => negb (Z.eqb r c)) (index sim))).
  { generalize (index sim). intro l. induction l as [|a l IH]; simpl; [reflexivity|].
    destruct (Z.eqb a c); simpl; now rewrite IH. }
  rewrite Hfm in Hperm. clear Hfm.
  split.
  - intro Hin. apply in_map_iff in Hin. destruct Hin as [[v s] [Hv Hin]].
    simpl in Hv. subst v similares. apply In_firstn in Hin.
    apply (Permutation_in _ Hperm) in Hin. apply in_map_iff in Hin.
    destruct Hin as [r [E Hr]]. inversion E; subst.
    apply filter_In in Hr. destruct Hr as [_ Hr].
    rewrite Z.eqb_refl in Hr. discriminate.
  - exists rest. repeat split; try assumption.
    intro Hlen. subst similares. apply firstn_all2.
    rewrite (Permutation_length Hperm), length_map.
    assert (Hlt : (length (filter (fun r => negb (Z.eqb r c)) (index sim))
                   < length (index sim))%nat).
    { clear - Hc. revert Hc. generalize (index sim). intro l.
      induction l as [|a l IH]; intro Hc; [contradiction|].
      simpl. destruct (Z.eqb_spec a c) as [E|E]; simpl.
      - pose proof (filter_length_le (fun r => negb (Z.eqb r c)) l). lia.
      - destruct Hc as [Hc|Hc]; [contradiction|]. specialize (IH Hc). lia. }
    lia.
Qed.

(** X7: a negative [n_vizinhos] is no error.  For a target that is a row
    of the matrix and a column of the similarity matrix, whose row labels
    are rows of the matrix (as in [main]), the call returns.  With [-1] the
    slice is [[1:0]]: no neighbour and no recommendation.  With [-2] or
    less the slice [[1:n_vizinhos+1]] counts its end from the back: the
    ranking is the sorted column without its first entry and without its
    last [-(n_vizinhos+1)] entries. *)
Theorem obter_recomendacoes_negative_n_vizinhos :
  forall cliente_id matriz df_similaridade n_vizinhos,
    In cliente_id (index matriz) ->
    In cliente_id (columns df_similaridade) ->
    (forall v, In v (index df_similaridade) -> In v (index matriz)) ->
    n_vizinhos < 0 ->
    exists pc similares recs,
      obter_recomendacoes argsort_kernel iter_set iter_diff
        cliente_id matriz df_similaridade n_vizinhos = Returns (pc, similares, recs) /\
      (n_vizinhos = -1 -> similares = [] /\ recs = []) /\
      (n_vizinhos <= -2 ->
       similares =
       skipn 1
         (firstn (length (index df_similaridade) - Z.to_nat (- (n_vizinhos + 1)))
            (sort_values_desc argsort_kernel
               (map (fun r => (r, cell df_similaridade r cliente_id))
                    (index df_similaridade))))).
Proof.
  intros c matriz sim n Hin Hc Hsub Hn.
  destruct (obter_recomendacoes_total argsort_kernel iter_set iter_diff kernel_perm
              c matriz sim n Hin Hc Hsub) as [[[pc similares] recs] H].
  exists pc, similares, recs. split; [exact H|].
  pose proof (obter_recomendacoes_coluna _ _ _ _ _ _ _ H) as Hsim.
  split.
  - intros ->. rewrite py_slice_1_0 in Hsim.
    split; [assumption|].
    apply obter_recomendacoes_Returns in H.
    destruct H as [_ [coluna [d [_ [_ [Hd ->]]]]]].
    subst similares. simpl in Hd. inversion Hd. reflexivity.
  - intro Hle. rewrite py_slice_negative in Hsim by assumption.
    rewrite <- (Permutation_length
                  (sort_values_desc_perm argsort_kernel kernel_perm
                     (map (fun r => (r, cell sim r c)) (index sim)))) in Hsim.
    now rewrite length_map in Hsim.
Qed.

Lemma obter_recomendacoes_entries (cliente_id : key)
    (matriz df_similaridade : DataFrame Q) (n_vizinhos : Z)
    (pc : list key) (similares : Series Q) (recs : dict) :
  obter_recomendacoes argsort_kernel iter_set iter_diff
    cliente_id matriz df_similaridade n_vizinhos = Returns (pc, similares, recs) ->
  NoDup (map fst recs) /\
  forall p r, In (p, r) recs <-> entrada (apoiadores matriz pc p similares) = Some r.
Proof.
  intro H. apply obter_recomendacoes_Returns in H.
  destruct H as [_ [coluna [d [_ [_ [Hd ->]]]]]].
  destruct (coletar_entries iter_set iter_diff iter_set_perm iter_diff_perm
              _ _ _ _ Hd) as [Hnd Hent].
  pose proof (py_sorted_reverse_perm (fun x : key * Rec => score (snd x)) d) as Hp.
  split.
  - apply (Permutation_NoDup (Permutation_map fst Hp)). exact Hnd.
  - intros p r. rewrite <- Hent. split; intro Hin.
    + apply (Permutation_in _ (Permutation_sym Hp)). exact Hin.
    + apply (Permutation_in _ Hp). exact Hin.
Qed.

Lemma obter_recomendacoes_keys (cliente_id : key)
    (matriz df_similaridade : DataFrame Q) (n_vizinhos : Z)
    (pc : list key) (similares : Series Q) (recs : dict) :
  obter_recomendacoes argsort_kernel iter_set iter_diff
    cliente_id matriz df_similaridade n_vizinhos = Returns (pc, similares, recs) ->
  forall p,
    In p (map fst recs) <->
    comprou matriz cliente_id p = false /\
    exists v s, In (v, s) similares /\ comprou matriz v p = true.
Proof.
  intro H. rename cliente_id into c.
  destruct (obter_recomendacoes_entries _ _ _ _ _ _ _ H) as [_ Hent].
  apply obter_recomendacoes_Returns in H. destruct H as [Hpc _].
  apply (produtos_de_Returns iter_set iter_set_perm) in Hpc.
  destruct Hpc as [_ [_ Hpc]].
  assert (Hmem : forall p, mem p pc = false <-> comprou matriz c p = false).
  { intro p. rewrite mem_not_In, Hpc. now destruct (comprou matriz c p). }
  intro p. split.
  - intro Hin. apply in_map_iff in Hin. destruct Hin as [[q r] [Hq Hin]].
    simpl in Hq. subst q. apply Hent in Hin.
    destruct (entrada_Some _ _ Hin) as [Hne _].
    destruct (apoiadores_comprou _ _ _ _ Hne) as [Hm Hap].
    split; [now apply Hmem|].
    rewrite Hap in Hne.
    destruct (filter (fun vs : key * Q => comprou matriz (fst vs) p) similares)
      as [|[v s] t] eqn:Ef; [congruence|].
    assert (Hv : In (v, s) (filter (fun vs : key * Q => comprou matriz (fst vs) p) similares))
      by (rewrite Ef; now left).
    apply filter_In in Hv. exists v, s. exact Hv.
  - intros [Hc [v [s [Hin Hv]]]]. apply Hmem in Hc.
    assert (Hsup : In (v, s) (apoiadores matriz pc p similares)).
    { unfold apoiadores. apply filter_In. split; [assumption|]. simpl.
      now rewrite Hv, Hc. }
    destruct (entrada (apoiadores matriz pc p similares)) as [r|] eqn:Er.
    + apply Hent in Er. apply in_map_iff. now exists (p, r).
    + destruct (apoiadores matriz pc p similares) as [|[v' s'] t];
        [contradiction | discriminate].
Qed.

(** X8: the recommendations of [obter_recomendacoes] are complete and
    without repetition: a product is recommended, once, exactly when the
    target has not purchased it and some customer of the neighbour ranking
    has. *)
Theorem obter_recomendacoes_complete :
  forall cliente_id matriz df_similaridade n_vizinhos pc similares recs,
    obter_recomendacoes argsort_kernel iter_set iter_diff
      cliente_id matriz df_similaridade n_vizinhos = Returns (pc, similares, recs) ->
    NoDup (map fst recs) /\
    forall p,
      In p (map fst recs) <->
      comprou matriz cliente_id p = false /\
      exists v s, In (v, s) similares /\ comprou matriz v p = true.
Proof.
  intros c matriz sim n pc similares recs H. split.
  - exact (proj1 (obter_recomendacoes_entries _ _ _ _ _ _ _ H)).
  - exact (obter_recomendacoes_keys _ _ _ _ _ _ _ H).
Qed.

Lemma obter_recomendacoes_Raises (cliente_id : key)
    (matriz df_similaridade : DataFrame Q) (n_vizinhos : Z) (e : exn) :
  obter_recomendacoes argsort_kernel iter_set iter_diff
    cliente_id matriz df_similaridade n_vizinhos = Raises e ->
  (e = KeyError cliente_id /\
   (~ In cliente_id (index matriz) \/ ~ In cliente_id (columns df_similaridade))) \/
  (exists v, e = KeyError v /\ In v (index df_similaridade) /\ ~ In v (index matriz)).
Proof.
  unfold obter_recomendacoes. intro H.
  destruct (in_dec Z.eq_dec cliente_id (index matriz)) as [Hin|Hnin].
  - destruct (produtos_de_index iter_set matriz cliente_id Hin) as [pc Epc].
    rewrite Epc in H. cbn [bind] in H.
    destruct (in_dec Z.eq_dec cliente_id (columns df_similaridade)) as [Hc|Hnc].
    + rewrite (getitem_column _ _ Hc) in H. cbn [bind] in H.
      match type of H with
      | context [coletar ?a ?b ?m ?p ?s ?d] =>
          destruct (coletar a b m p s d) as [d'|e'] eqn:E
      end; cbn [bind] in H; [discriminate|].
      inversion H; subst e'. clear H.
      apply coletar_Raises in E. destruct E as [vs [Hvs [Hn ->]]].
      right. exists (fst vs). split; [reflexivity|]. split; [|assumption].
      eapply (similares_in_index argsort_kernel kernel_perm). exact Hvs.
    + unfold getitem in H. apply mem_not_In in Hnc. rewrite Hnc in H.
      cbn [bind] in H. inversion H. left. split; [reflexivity|].
      right. now apply mem_not_In.
  - rewrite (produtos_de_KeyError iter_set matriz cliente_id Hnin) in H.
    cbn [bind] in H. inversion H. left. split; [reflexivity|]. now left.
Qed.

(** X9: the only exception [obter_recomendacoes] raises is a [KeyError],
    and its label says which lookup failed: the target's, when the target
    is not a row of [matriz] (line 107) or not a column of
    [df_similaridade] (line 110); or that of a row label of
    [df_similaridade] that is not a row of [matriz] (line 116).  A target
    that is a row of [matriz] but not a column of [df_similaridade] always
    raises. *)
Theorem obter_recomendacoes_only_key_errors :
  forall cliente_id matriz df_similaridade n_vizinhos,
    (forall e,
       obter_recomendacoes argsort_kernel iter_set iter_diff
         cliente_id matriz df_similaridade n_vizinhos = Raises e ->
       (e = KeyError cliente_id /\
        (~ In cliente_id (index matriz) \/
         ~ In cliente_id (columns df_similaridade))) \/
       (exists v, e = KeyError v /\ In v (index df_similaridade) /\
                  ~ In v (index matriz))) /\
    (In cliente_id (index matriz) ->
     ~ In cliente_id (columns df_similaridade) ->
     obter_recomendacoes argsort_kernel iter_set iter_diff
       cliente_id matriz df_similaridade n_vizinhos = Raises (KeyError cliente_id)).
Proof.
  intros c matriz sim n. split.
  - intros e H. exact (obter_recomendacoes_Raises _ _ _ _ _ H).
  - intros Hin Hnc. unfold obter_recomendacoes.
    destruct (produtos_de_index iter_set matriz c Hin) as [pc Epc].
    rewrite Epc. cbn [bind]. unfold getitem.
    apply mem_not_In in Hnc. now rewrite Hnc.
Qed.

(** X10: the target never supports a recommendation, even when the ranking
    wrongly keeps it as its own neighbour: the ['vizinhos'] list of a
    recommended product does not hold [cliente_id]. *)
Theorem obter_recomendacoes_target_not_supporter :
  forall cliente_id matriz df_similaridade n_vizinhos pc similares recs,
    obter_recomendacoes argsort_kernel iter_set iter_diff
      cliente_id matriz df_similaridade n_vizinhos = Returns (pc, similares, recs) ->
    forall p r, In (p, r) recs -> ~ In cliente_id (vizinhos r).
Proof.
  intros c matriz sim n pc similares recs H p r Hin Hc.
  destruct (obter_recomendacoes_entries _ _ _ _ _ _ _ H) as [_ Hent].
  apply Hent in Hin.
  destruct (entrada_Some _ _ Hin) as [Hne [Hviz _]].
  destruct (apoiadores_comprou _ _ _ _ Hne) as [Hm Hap].
  rewrite Hviz, Hap in Hc. apply in_map_iff in Hc.
  destruct Hc as [[v s] [Hv Hvs]]. simpl in Hv. subst v.
  apply filter_In in Hvs. destruct Hvs as [_ Hcomp]. simpl in Hcomp.
  apply obter_recomendacoes_Returns in H. destruct H as [Hpc _].
  apply (produtos_de_Returns iter_set iter_set_perm) in Hpc.
  destruct Hpc as [_ [_ Hpc]].
  apply Hpc in Hcomp. apply mem_In in Hcomp. congruence.
Qed.

(** X11: asking for more neighbours only adds.  For
    [0 <= n <= n'], the ranking for [n'] starts with the ranking for [n],
    and every product recommended with [n] is recommended with [n'], with
    a score at least as high and the same supporters followed by the new
    ones. *)
Theorem obter_recomendacoes_more_neighbours :
  forall cliente_id matriz df_similaridade n n' pc similares recs pc' similares' recs',
    obter_recomendacoes argsort_kernel iter_set iter_diff
      cliente_id matriz df_similaridade n = Returns (pc, similares, recs) ->
    obter_recomendacoes argsort_kernel iter_set iter_diff
      cliente_id matriz df_similaridade n' = Returns (pc', similares', recs') ->
    0 <= n <= n' ->
    pc' = pc /\
    (exists mais, similares' = similares ++ mais) /\
    (forall p r, In (p, r) recs ->
       exists r' mais,
         In (p, r') recs' /\ (score r <= score r')%Q /\
         vizinhos r' = vizinhos r ++ mais).
Proof.
  intros c matriz sim n n' pc similares recs pc' similares' recs' H H' Hn.
  pose proof (obter_recomendacoes_coluna _ _ _ _ _ _ _ H) as Hs.
  pose proof (obter_recomendacoes_coluna _ _ _ _ _ _ _ H') as Hs'.
  destruct (obter_recomendacoes_entries _ _ _ _ _ _ _ H) as [_ Hent].
  destruct (obter_recomendacoes_entries _ _ _ _ _ _ _ H') as [_ Hent'].
  apply obter_recomendacoes_Returns in H. destruct H as [Hpc _].
  apply obter_recomendacoes_Returns in H'. destruct H' as [Hpc' _].
  assert (Epc : pc' = pc) by congruence. subst pc'.
  destruct (py_slice_prefix n n'
              (sort_values_desc argsort_kernel
                 (map (fun r => (r, cell sim r c)) (index sim))) Hn) as [mais Hmais].
  rewrite <- Hs, <- Hs' in Hmais.
  split; [reflexivity|]. split; [now exists mais|].
  intros p r Hin. apply Hent in Hin.
  destruct (entrada_app _ (apoiadores matriz pc p mais) _ Hin) as [r' [Er' [Hle Hviz]]].
  exists r', (map fst (apoiadores matriz pc p mais)).
  split; [|now split].
  apply Hent'. rewrite Hmais. unfold apoiadores in *. now rewrite filter_app.
Qed.

End Resultado.

(** ** The three calls chained as in [main] *)

Lemma calcular_similaridades_Raises {A : Type} (ar : Arith A)
    (matriz : DataFrame A) (e : exn) :
  calcular_similaridades ar matriz = Raises e -> e = ValueError.
Proof.
  unfold calcular_similaridades, cosine_similarity, check_array.
  destruct (to_numpy matriz) as [|r t]; cbn [bind].
  - intro H. now inversion H.
  - destruct r as [|x r]; cbn [bind].
    + intro H. now inversion H.
    + destruct (forallb (forallb (is_finite ar)) ((x :: r) :: t)); cbn [bind].
      * discriminate.
      * intro H. now inversion H.
Qed.

Lemma pivot_table_index (df_vendas : list Venda) (fill_value : Q) (c : key) :
  In c (index (pivot_table df_vendas fill_value)) <->
  exists v, In v df_vendas /\ CustomerKey v = c.
Proof.
  simpl. rewrite sorted_unique_In, in_map_iff.
  split; intros [v Hv]; exists v; tauto.
Qed.

Section Encadeamento.
Variable argsort_kernel : Series Q -> Series Q.
Variable iter_set : list key -> list key.
Variable iter_diff : list key -> list key.
Hypothesis kernel_perm : forall s, Permutation s (argsort_kernel s).

(** X12: what the chain [criar_matriz_interacao], [calcular_similaridades],
    [obter_recomendacoes] of [main] can raise, on any sales table.  A
    [ValueError] comes from [calcular_similaridades] alone (inside the
    [try] of [main]); once the similarity matrix is computed, the chain
    returns a result exactly for a customer with a record in the sales
    table, and raises [KeyError] with the customer's key (outside the
    [try]) for a customer with none. *)
Theorem main_core_outcomes :
  forall df_vendas cliente_id n_vizinhos,
    (forall e,
       main_core argsort_kernel iter_set iter_diff df_vendas cliente_id n_vizinhos
         = Raises e ->
       (e = ValueError /\
        calcular_similaridades f64 (astype float_of_Q (pivot_table df_vendas 0%Q))
          = Raises ValueError) \/
       (e = KeyError cliente_id /\
        forall v, In v df_vendas -> CustomerKey v <> cliente_id)) /\
    (forall sim,
       calcular_similaridades f64 (astype float_of_Q (pivot_table df_vendas 0%Q))
         = Returns sim ->
       ((exists v, In v df_vendas /\ CustomerKey v = cliente_id) ->
        exists res,
          main_core argsort_kernel iter_set iter_diff df_vendas cliente_id n_vizinhos
            = Returns res) /\
       ((forall v, In v df_vendas -> CustomerKey v <> cliente_id) ->
        main_core argsort_kernel iter_set iter_diff df_vendas cliente_id n_vizinhos
          = Raises (KeyError cliente_id))).
Proof.
  intros df c n. unfold main_core, criar_matriz_interacao. cbn [bind].
  set (matriz := pivot_table df 0%Q).
  assert (Hframe : forall sim,
            calcular_similaridades f64 (astype float_of_Q matriz) = Returns sim ->
            similarity_frame_of matriz (astype Q_of_float sim)).
  { intros sim Hs.
    destruct (calcular_similaridades_frame f64 Q_of_float _ _ Hs) as [_ [Hi Hc]].
    split; assumption. }
  split.
  - intros e H.
    destruct (calcular_similaridades f64 (astype float_of_Q matriz)) as [sim|e'] eqn:Es;
      cbn [bind] in H.
    + right. destruct (Hframe sim eq_refl) as [Hi Hc].
      assert (Hno : ~ In c (index matriz) -> forall v, In v df -> CustomerKey v <> c).
      { intros Hn v Hv E. apply Hn. apply pivot_table_index. now exists v. }
      destruct (obter_recomendacoes_Raises argsort_kernel iter_set iter_diff kernel_perm
                  _ _ _ _ _ H) as [[-> Hwhy]|[v [_ [Hv Hnv]]]].
      * split; [reflexivity|]. apply Hno. rewrite Hc in Hwhy. tauto.
      * rewrite Hi in Hv. contradiction.
    + left. inversion H; subst e'. clear H.
      pose proof (calcular_similaridades_Raises _ _ _ Es). subst e. now split.
  - intros sim Hs. rewrite Hs. cbn [bind]. split.
    + intros Hex. apply (obter_recomendacoes_succeeds argsort_kernel iter_set iter_diff
                           kernel_perm).
      * now apply pivot_table_index.
      * now apply Hframe.
    + intros Hno. unfold obter_recomendacoes.
      rewrite (produtos_de_KeyError iter_set matriz c); [reflexivity|].
      intro Hin. apply pivot_table_index in Hin. destruct Hin as [v [Hv E]].
      exact (Hno v Hv E).
Qed.

End Encadeamento.

(** ** The same properties on the reference platform *)

Lemma obter_recomendacoes_ref_empate_um :
  obter_recomendacoes_ref 1 matriz_empate similaridade_empate 1 =
  Returns ([1],
           [(2, score_empate)],
           [(5, {| score := score_empate; vizinhos := [2] |})]).
Proof. vm_compute. reflexivity. Qed.

Lemma obter_recomendacoes_ref_desconhecido :
  obter_recomendacoes_ref 9 matriz_empate similaridade_empate 5 = Raises (KeyError 9).
Proof. vm_compute. reflexivity. Qed.

Lemma main_core_ref_desconhecido :
  main_core_ref vendas_empate 9 5 = Raises (KeyError 9).
Proof. vm_compute. reflexivity. Qed.

Lemma similaridade_empate_target_first :
  forall r, In r (index similaridade_empate) -> r <> 1 ->
            (cell similaridade_empate r 1 < cell similaridade_empate 1 1)%Q.
Proof.
  intros r Hr Hne. vm_compute in Hr.
  destruct Hr as [<-|[<-|[<-|[]]]]; [congruence | |]; vm_compute; reflexivity.
Qed.

Lemma similaridade_empate_NoDup : NoDup (index similaridade_empate).
Proof.
  vm_compute. repeat constructor; simpl; intuition discriminate.
Qed.

Lemma obter_recomendacoes_ranking_shape_witness :
  length [(2, score_empate); (3, score_empate)] =
    Nat.min (Z.to_nat 5) (length (index similaridade_empate) - 1) /\
  StronglySorted (fun a b : key * Q => (snd b <= snd a)%Q)
    [(2, score_empate); (3, score_empate)] /\
  (forall v s, In (v, s) [(2, score_empate); (3, score_empate)] ->
     In v (index similaridade_empate) /\ s = cell similaridade_empate v 1).
Proof.
  apply (obter_recomendacoes_ranking_shape
           insertion_kernel (fun l => l) (fun l => l)
           insertion_kernel_perm insertion_kernel_sorted
           1 matriz_empate similaridade_empate 5 _ _ _
           obter_recomendacoes_ref_empate).
  lia.
Defined.

Lemma obter_recomendacoes_ranking_when_target_first_witness :
  ~ In 1 (map fst [(2, score_empate); (3, score_empate)]) /\
  exists outros,
    Permutation outros
      (map (fun r => (r, cell similaridade_empate r 1))
           (filter (fun r => negb (Z.eqb r 1)) (index similaridade_empate))) /\
    StronglySorted (fun a b : key * Q => (snd b <= snd a)%Q) outros /\
    [(2, score_empate); (3, score_empate)] = firstn (Z.to_nat 5) outros /\
    ((length (index similaridade_empate) - 1 <= Z.to_nat 5)%nat ->
     [(2, score_empate); (3, score_empate)] = outros).
Proof.
  apply (obter_recomendacoes_ranking_when_target_first
           insertion_kernel (fun l => l) (fun l => l)
           insertion_kernel_perm insertion_kernel_sorted
           1 matriz_empate similaridade_empate 5 _ _ _
           obter_recomendacoes_ref_empate).
  - exact similaridade_empate_NoDup.
  - vm_compute. now left.
  - exact similaridade_empate_target_first.
  - lia.
Defined.

Lemma obter_recomendacoes_negative_n_vizinhos_witness :
  exists pc similares recs,
    obter_recomendacoes_ref 1 matriz_empate similaridade_empate (-2)
      = Returns (pc, similares, recs) /\
    (-2 = -1 -> similares = [] /\ recs = []) /\
    (-2 <= -2 ->
     similares =
     skipn 1
       (firstn (length (index similaridade_empate) - Z.to_nat (- (-2 + 1)))
          (sort_values_desc insertion_kernel
             (map (fun r => (r, cell similaridade_empate r 1))
                  (index similaridade_empate))))).
Proof.
  apply (obter_recomendacoes_negative_n_vizinhos
           insertion_kernel (fun l => l) (fun l => l)
           insertion_kernel_perm
           1 matriz_empate similaridade_empate (-2)).
  - vm_compute. now left.
  - vm_compute. now left.
  - intros v Hv. vm_compute in Hv. vm_compute. exact Hv.
  - lia.
Defined.

Lemma obter_recomendacoes_complete_witness :
  In 5 (map fst [(5, {| score := score_empate; vizinhos := [2] |});
                 (3, {| score := score_empate; vizinhos := [3] |})]) <->
  comprou matriz_empate 1 5 = false /\
  exists v s, In (v, s) [(2, score_empate); (3, score_empate)] /\
              comprou matriz_empate v 5 = true.
Proof.
  exact (proj2 (obter_recomendacoes_complete
                  insertion_kernel (fun l => l) (fun l => l)
                  same_order_perm same_order_perm
                  1 matriz_empate similaridade_empate 5 _ _ _
                  obter_recomendacoes_ref_empate) 5).
Defined.

Lemma obter_recomendacoes_only_key_errors_witness :
  (KeyError 9 = KeyError 9 /\
   (~ In 9 (index matriz_empate) \/ ~ In 9 (columns similaridade_empate))) \/
  (exists v, KeyError 9 = KeyError v /\ In v (index similaridade_empate) /\
             ~ In v (index matriz_empate)).
Proof.
  exact (proj1 (obter_recomendacoes_only_key_errors
                  insertion_kernel (fun l => l) (fun l => l)
                  insertion_kernel_perm
                  9 matriz_empate similaridade_empate 5)
               (KeyError 9) obter_recomendacoes_ref_desconhecido).
Defined.

Lemma obter_recomendacoes_target_not_supporter_witness :
  ~ In 1 (vizinhos {| score := score_empate; vizinhos := [2] |}).
Proof.
  exact (obter_recomendacoes_target_not_supporter
           insertion_kernel (fun l => l) (fun l => l)
           same_order_perm same_order_perm
           1 matriz_empate similaridade_empate 5 _ _ _
           obter_recomendacoes_ref_empate
           5 {| score := score_empate; vizinhos := [2] |} (or_introl eq_refl)).
Defined.

Lemma obter_recomendacoes_more_neighbours_witness :
  [1] = [1] /\
  (exists mais, [(2, score_empate); (3, score_empate)] = [(2, score_empate)] ++ mais) /\
  (forall p r, In (p, r) [(5, {| score := score_empate; vizinhos := [2] |})] ->
     exists r' mais,
       In (p, r') [(5, {| score := score_empate; vizinhos := [2] |});
                   (3, {| score := score_empate; vizinhos := [3] |})] /\
       (score r <= score r')%Q /\
       vizinhos r' = vizinhos r ++ mais).
Proof.
  apply (obter_recomendacoes_more_neighbours
           insertion_kernel (fun l => l) (fun l => l)
           same_order_perm same_order_perm
           1 matriz_empate similaridade_empate 1 5 _ _ _ _ _ _
           obter_recomendacoes_ref_empate_um obter_recomendacoes_ref_empate).
  lia.
Defined.

Lemma main_core_outcomes_witness :
  (KeyError 9 = ValueError /\
   calcular_similaridades f64 (astype float_of_Q (pivot_table vendas_empate 0%Q))
     = Raises ValueError) \/
  (KeyError 9 = KeyError 9 /\
   forall v, In v vendas_empate -> CustomerKey v <> 9).
Proof.
  exact (proj1 (main_core_outcomes
                  insertion_kernel (fun l => l) (fun l => l)
                  insertion_kernel_perm
                  vendas_empate 9 5)
               (KeyError 9) main_core_ref_desconhecido).
Defined.

(** ** [main]: the purchased set of the chain *)

Lemma pivot_table_comprou (df : list Venda) (c p : key) :
  (forall v, In v df -> (0 <= TotalQtd v)%Q) ->
  (comprou (pivot_table df 0%Q) c p = true <->
   exists v, In v df /\ CustomerKey v = c /\ ProductKey v = p /\ (0 < TotalQtd v)%Q).
Proof.
  intro Hnn. unfold comprou. rewrite andb_true_iff, mem_In, Qltb_lt.
  rewrite (proj2 (pivot_table_cell_sign df Hnn c p)). split.
  - tauto.
  - intros [v [Hv [Hc [Hp Hpos]]]]. split; [|now exists v].
    simpl. rewrite sorted_unique_In, in_map_iff. now exists v.
Qed.

Section Comprados.
Variable argsort_kernel : Series Q -> Series Q.
Variable iter_set : list key -> list key.
Variable iter_diff : list key -> list key.
Hypothesis iter_set_perm : forall l, Permutation l (iter_set l).

(** X13: on a sales table whose quantities are all positive, the set of
    purchased products that the chain of [main] returns is never empty: it
    is exactly the products of the customer's records.  So the message of
    the first tab for a customer without purchases (line 235) is never
    reached on such a table: a customer without a record raises [KeyError]
    before. *)
Theorem main_core_purchased_products :
  forall df_vendas cliente_id n_vizinhos pc similares recs,
    main_core argsort_kernel iter_set iter_diff df_vendas cliente_id n_vizinhos
      = Returns (pc, similares, recs) ->
    (forall v, In v df_vendas -> (0 < TotalQtd v)%Q) ->
    pc <> [] /\
    NoDup pc /\
    forall p, In p pc <->
              exists v, In v df_vendas /\ CustomerKey v = cliente_id /\ ProductKey v = p.
Proof.
  intros df c n pc similares recs H Hpos.
  unfold main_core, criar_matriz_interacao in H. cbn [bind] in H.
  destruct (calcular_similaridades f64 (astype float_of_Q (pivot_table df 0%Q)))
    as [sim|e]; cbn [bind] in H; [|discriminate].
  apply obter_recomendacoes_Returns in H. destruct H as [Hpc _].
  apply (produtos_de_Returns iter_set iter_set_perm) in Hpc.
  destruct Hpc as [Hc [Hnd Hpc]].
  assert (Hnn : forall v, In v df -> (0 <= TotalQtd v)%Q).
  { intros v Hv. apply Qlt_le_weak. now apply Hpos. }
  assert (Hiff : forall p, In p pc <->
            exists v, In v df /\ CustomerKey v = c /\ ProductKey v = p).
  { intro p. rewrite Hpc, (pivot_table_comprou df c p Hnn). split.
    - intros [v [Hv [H1 [H2 _]]]]. now exists v.
    - intros [v [Hv [H1 H2]]]. exists v. repeat split; try assumption.
      now apply Hpos. }
  split; [|split; assumption].
  apply pivot_table_index in Hc. destruct Hc as [v [Hv Hcv]].
  intro E. assert (Hin : In (ProductKey v) pc) by (apply Hiff; now exists v).
  rewrite E in Hin. contradiction.
Qed.

End Comprados.

Lemma main_core_ref_empate :
  main_core_ref vendas_empate 1 5 =
  Returns ([1],
           [(2, score_empate); (3, score_empate)],
           [(5, {| score := score_empate; vizinhos := [2] |});
            (3, {| score := score_empate; vizinhos := [3] |})]).
Proof. vm_compute. reflexivity. Qed.

Lemma main_core_purchased_products_witness :
  [1] <> [] /\
  NoDup [1] /\
  forall p, In p [1] <->
            exists v, In v vendas_empate /\ CustomerKey v = 1 /\ ProductKey v = p.
Proof.
  apply (main_core_purchased_products
           insertion_kernel (fun l => l) (fun l => l) same_order_perm
           vendas_empate 1 5 _ _ _ main_core_ref_empate).
  intros v Hv. simpl in Hv.
  repeat (destruct Hv as [<-|Hv]; [vm_compute; reflexivity|]). contradiction.
Defined.

(** ** [main]: the customer behind a name *)

Lemma values_0_filter {A : Type} (f : A -> bool) (l : list A) (x : A) :
  values_0 (filter f l) = Some x <->
  exists pre post,
    l = pre ++ x :: post /\ f x = true /\ forall y, In y pre -> f y = false.
Proof.
  induction l as [|a l IH]; simpl.
  - split; [discriminate|]. intros [pre [post [E _]]]. now destruct pre.
  - destruct (f a) eqn:Ea; simpl.
    + split.
      * intro H. inversion H; subst. exists [], l. repeat split; [assumption|].
        intros y [].
      * intros [pre [post [E [Hx Hpre]]]]. destruct pre as [|b pre].
        -- simpl in E. now inversion E.
        -- simpl in E. inversion E; subst.
           rewrite (Hpre b (or_introl eq_refl)) in Ea. discriminate.
    + rewrite IH. split.
      * intros [pre [post [E [Hx Hpre]]]]. exists (a :: pre), post. subst l.
        repeat split; [assumption|]. intros y [<-|Hy]; [assumption | now apply Hpre].
      * intros [pre [post [E [Hx Hpre]]]]. destruct pre as [|b pre].
        -- simpl in E. inversion E; subst. rewrite Hx in Ea. discriminate.
        -- simpl in E. inversion E; subst. exists pre, post.
           repeat split; [assumption|]. intros y Hy. apply Hpre. now right.
Qed.

Lemma values_0_map {A B : Type} (g : A -> B) (l : list A) :
  values_0 (map g l) = option_map g (values_0 l).
Proof. now destruct l. Qed.

Lemma same_key_same_row (df : list Clientes.row) (r r' : Clientes.row) :
  NoDup (map Clientes.CustomerKey df) ->
  In r df -> In r' df ->
  Clientes.CustomerKey r = Clientes.CustomerKey r' -> r = r'.
Proof.
  induction df as [|a df IH]; simpl; intros Hnd Hr Hr' E; [contradiction|].
  inversion Hnd as [|? ? Hna Hnd']; subst.
  destruct Hr as [<-|Hr], Hr' as [<-|Hr'].
  - reflexivity.
  - elim Hna. rewrite E. now apply in_map.
  - elim Hna. rewrite <- E. now apply in_map.
  - now apply IH.
Qed.

Lemma main_cliente_id_Some (df_clientes : list Clientes.row)
    (nome : String.string) (k : key) :
  main_cliente_id df_clientes nome = Some k <->
  exists pre r post,
    df_clientes = pre ++ r :: post /\
    Clientes.nome_completo r = nome /\
    Clientes.CustomerKey r = k /\
    forall r', In r' pre -> Clientes.nome_completo r' <> nome.
Proof.
  unfold main_cliente_id. rewrite values_0_map. split.
  - destruct (values_0 _) as [r|] eqn:E; simpl; [|discriminate].
    intro H. inversion H; subst. apply values_0_filter in E.
    destruct E as [pre [post [Hdf [Hr Hpre]]]]. exists pre, r, post.
    repeat split; try assumption.
    + now apply String.eqb_eq.
    + intros r' Hr'. apply String.eqb_neq. now apply Hpre.
  - intros [pre [r [post [Hdf [Hn [Hk Hpre]]]]]].
    assert (E : values_0
                  (filter (fun r0 => String.eqb (Clientes.nome_completo r0) nome)
                          df_clientes) = Some r).
    { apply values_0_filter. exists pre, post. repeat split; try assumption.
      - now apply String.eqb_eq.
      - intros y Hy. apply String.eqb_neq. now apply Hpre. }
    rewrite E. simpl. now rewrite Hk.
Qed.

(** X14: the customer analysed is the first of that name.  For every name
    offered by the select box, the lookup of lines 169-172 finds a customer
    (no [IndexError]): the first row of [df_clientes] carrying the name;
    the sidebar row of line 194 is found too and has that key, and it is
    that very row when the keys of [df_clientes] are distinct. *)
Theorem main_cliente_id_first_of_name :
  forall df_clientes cliente_selecionado,
    In cliente_selecionado (clientes_disponiveis df_clientes) ->
    exists pre r post,
      df_clientes = pre ++ r :: post /\
      Clientes.nome_completo r = cliente_selecionado /\
      (forall r', In r' pre -> Clientes.nome_completo r' <> cliente_selecionado) /\
      main_cliente_id df_clientes cliente_selecionado = Some (Clientes.CustomerKey r) /\
      exists info,
        main_cliente_info df_clientes (Clientes.CustomerKey r) = Some info /\
        Clientes.CustomerKey info = Clientes.CustomerKey r /\
        (NoDup (map Clientes.CustomerKey df_clientes) -> info = r).
Proof.
  intros df nome Hin. unfold clientes_disponiveis in Hin.
  apply in_map_iff in Hin. destruct Hin as [r0 [Hn0 Hr0]].
  destruct (values_0
              (filter (fun r => String.eqb (Clientes.nome_completo r) nome) df))
    as [r|] eqn:E.
  - pose proof E as E'. apply values_0_filter in E'.
    destruct E' as [pre [post [Hdf [Hr Hpre]]]].
    apply String.eqb_eq in Hr.
    exists pre, r, post. split; [assumption|]. split; [assumption|]. split.
    { intros r' Hr'. apply String.eqb_neq. now apply Hpre. }
    split.
    { unfold main_cliente_id. rewrite values_0_map, E. reflexivity. }
    assert (Hrdf : In r df).
    { rewrite Hdf. apply in_or_app. right. now left. }
    unfold main_cliente_info.
    destruct (values_0
                (filter (fun r1 => Z.eqb (Clientes.CustomerKey r1) (Clientes.CustomerKey r))
                        df)) as [info|] eqn:Ei.
    + pose proof Ei as Ei'. apply values_0_filter in Ei'.
      destruct Ei' as [pre' [post' [Hdf' [Hk _]]]]. apply Z.eqb_eq in Hk.
      exists info. split; [reflexivity|]. split; [assumption|].
      intro Hnd. apply (same_key_same_row df); try assumption.
      rewrite Hdf'. apply in_or_app. right. now left.
    + exfalso.
      assert (Hf : In r (filter (fun r1 => Z.eqb (Clientes.CustomerKey r1)
                                                 (Clientes.CustomerKey r)) df)).
      { apply filter_In. split; [assumption | apply Z.eqb_refl]. }
      match type of Hf with
      | In _ ?fl => destruct fl; [contradiction | discriminate]
      end.
  - exfalso.
    assert (Hf : In r0 (filter (fun r => String.eqb (Clientes.nome_completo r) nome) df)).
    { apply filter_In. split; [assumption | now apply String.eqb_eq]. }
    match type of Hf with
    | In _ ?fl => destruct fl; [contradiction | discriminate]
    end.
Qed.

Lemma main_cliente_id_first_of_name_witness :
  exists pre r post,
    clientes_homonimos = pre ++ r :: post /\
    Clientes.nome_completo r = Nomes.ana_lima /\
    (forall r', In r' pre -> Clientes.nome_completo r' <> Nomes.ana_lima) /\
    main_cliente_id clientes_homonimos Nomes.ana_lima = Some (Clientes.CustomerKey r) /\
    exists info,
      main_cliente_info clientes_homonimos (Clientes.CustomerKey r) = Some info /\
      Clientes.CustomerKey info = Clientes.CustomerKey r /\
      (NoDup (map Clientes.CustomerKey clientes_homonimos) -> info = r).
Proof.
  apply (main_cliente_id_first_of_name clientes_homonimos Nomes.ana_lima).
  simpl. now left.
Defined.

(** X15: a customer who shares the full name of an earlier row of
    [df_clientes] can never be analysed: with distinct customer keys, no
    choice in the select box makes lines 169-172 yield the key of the later
    homonym. *)
Theorem main_cliente_id_homonym_unreachable :
  forall pre r1 mid r2 post,
    Clientes.nome_completo r1 = Clientes.nome_completo r2 ->
    NoDup (map Clientes.CustomerKey (pre ++ r1 :: mid ++ r2 :: post)) ->
    forall cliente_selecionado,
      main_cliente_id (pre ++ r1 :: mid ++ r2 :: post) cliente_selecionado
      <> Some (Clientes.CustomerKey r2).
Proof.
  intros pre r1 mid r2 post Hnome Hnd nome H.
  apply main_cliente_id_Some in H.
  destruct H as [pre' [r [post' [Hdf [Hn [Hk Hpre']]]]]].
  set (df := pre ++ r1 :: mid ++ r2 :: post) in *.
  assert (Hr2 : In r2 df).
  { unfold df. apply in_or_app. right. right. apply in_or_app. right. now left. }
  assert (Hr : In r df).
  { rewrite Hdf. apply in_or_app. right. now left. }
  assert (E : r = r2) by (apply (same_key_same_row df); assumption).
  subst r.
  assert (Hnd' : NoDup df).
  { apply (NoDup_map_inv Clientes.CustomerKey). exact Hnd. }
  assert (Hpos : pre' = pre ++ r1 :: mid).
  { clear - Hdf Hnd'. unfold df in *.
    replace (pre ++ r1 :: mid ++ r2 :: post)
      with ((pre ++ r1 :: mid) ++ r2 :: post) in *
      by (rewrite <- app_assoc; reflexivity).
    revert Hdf Hnd'. generalize (pre ++ r1 :: mid). intro a. revert pre'.
    induction a as [|x a IH]; intros [|y b] Hdf Hnd; simpl in *.
    - reflexivity.
    - inversion Hdf; subst. inversion Hnd as [|? ? Hna _]; subst.
      elim Hna. apply in_or_app. right. now left.
    - inversion Hdf; subst. inversion Hnd as [|? ? Hna _]; subst.
      elim Hna. apply in_or_app. right. now left.
    - inversion Hdf as [[Hxy Hrest]]. subst y. f_equal.
      inversion Hnd; subst. now apply IH. }
  apply (Hpre' r1).
  - rewrite Hpos. apply in_or_app. right. now left.
  - now rewrite Hnome.
Qed.

Lemma main_cliente_id_homonym_unreachable_witness :
  main_cliente_id clientes_homonimos Nomes.ana_lima <> Some 3 /\
  main_cliente_id clientes_homonimos Nomes.rui_costa <> Some 3.
Proof.
  assert (Hnd : NoDup (map Clientes.CustomerKey clientes_homonimos)).
  { simpl. repeat constructor; simpl; intuition discriminate. }
  split;
    apply (main_cliente_id_homonym_unreachable
             [] (cliente 1 Nomes.ana_lima) [cliente 2 Nomes.rui_costa]
             (cliente 3 Nomes.ana_lima) [] eq_refl Hnd).
Defined.

(** ** [main]: the recommendations shown *)

Lemma py_slice_from_0 {A : Type} (n : Z) (l : list A) :
  0 <= n -> py_slice 0 n l = firstn (Z.to_nat n) l.
Proof.
  intro Hn. unfold py_slice, slice_bound.
  assert (H1 : (0 <? 0) = false) by reflexivity. rewrite H1.
  assert (H2 : (n <? 0) = false) by (apply Z.ltb_ge; lia). rewrite H2.
  cbv zeta.
  replace (Z.min 0 (Z.of_nat (length l))) with 0 by lia.
  simpl skipn. rewrite Z.sub_0_r.
  destruct (Z_le_gt_dec n (Z.of_nat (length l))) as [Hle|Hgt].
  - now rewrite Z.min_l by assumption.
  - rewrite Z.min_r by lia. rewrite Nat2Z.id.
    rewrite !firstn_all2; [reflexivity | lia | lia].
Qed.

Lemma StronglySorted_app_inv {A : Type} (R : A -> A -> Prop) (a b : list A) :
  StronglySorted R (a ++ b) ->
  forall x y, In x a -> In y b -> R x y.
Proof.
  induction a as [|h a IH]; simpl; intros Hs x y Hx Hy; [contradiction|].
  inversion Hs as [|? ? Hs' Hall]; subst. destruct Hx as [<-|Hx].
  - rewrite Forall_forall in Hall. apply Hall. apply in_or_app. now right.
  - now apply IH.
Qed.

(** X16: the recommendations shown are the best ones.  For a result of
    [obter_recomendacoes] and a non-negative [n_recomendacoes], the entries
    the tab goes through (line 241) are the first
    [min(n_recomendacoes, len(recomendacoes))] of the list, in its order,
    and no recommendation left out has a higher score than one shown. *)
Theorem main_recomendacoes_exibidas_top :
  forall argsort_kernel iter_set iter_diff
         cliente_id matriz df_similaridade n_vizinhos pc similares recs n_recomendacoes,
    obter_recomendacoes argsort_kernel iter_set iter_diff
      cliente_id matriz df_similaridade n_vizinhos = Returns (pc, similares, recs) ->
    0 <= n_recomendacoes ->
    length (main_recomendacoes_exibidas recs n_recomendacoes) =
      Nat.min (Z.to_nat n_recomendacoes) (length recs) /\
    exists resto,
      recs = main_recomendacoes_exibidas recs n_recomendacoes ++ resto /\
      forall x y,
        In x (main_recomendacoes_exibidas recs n_recomendacoes) -> In y resto ->
        (score (snd y) <= score (snd x))%Q.
Proof.
  intros kernel iset idiff c matriz sim n pc similares recs k H Hk.
  unfold main_recomendacoes_exibidas. rewrite py_slice_from_0 by assumption.
  split; [apply length_firstn|].
  exists (skipn (Z.to_nat k) recs). split; [now rewrite firstn_skipn|].
  apply obter_recomendacoes_Returns in H.
  destruct H as [_ [coluna [d [_ [_ [_ Hrecs]]]]]].
  pose proof (py_sorted_reverse_descending (fun x : key * Rec => score (snd x)) d) as Hs.
  rewrite <- Hrecs in Hs. rewrite <- (firstn_skipn (Z.to_nat k) recs) in Hs.
  intros x y Hx Hy.
  exact (StronglySorted_app_inv _ _ _ Hs x y Hx Hy).
Qed.

Lemma main_recomendacoes_exibidas_top_witness :
  length (main_recomendacoes_exibidas
            [(5, {| score := score_empate; vizinhos := [2] |});
             (3, {| score := score_empate; vizinhos := [3] |})] 1) =
    Nat.min (Z.to_nat 1) 2 /\
  exists resto,
    [(5, {| score := score_empate; vizinhos := [2] |});
     (3, {| score := score_empate; vizinhos := [3] |})] =
    main_recomendacoes_exibidas
      [(5, {| score := score_empate; vizinhos := [2] |});
       (3, {| score := score_empate; vizinhos := [3] |})] 1 ++ resto /\
    forall x y,
      In x (main_recomendacoes_exibidas
              [(5, {| score := score_empate; vizinhos := [2] |});
               (3, {| score := score_empate; vizinhos := [3] |})] 1) ->
      In y resto ->
      (score (snd y) <= score (snd x))%Q.
Proof.
  apply (main_recomendacoes_exibidas_top
           insertion_kernel (fun l => l) (fun l => l)
           1 matriz_empate similaridade_empate 5 _ _ _ 1
           obter_recomendacoes_ref_empate).
  lia.
Defined.

(** ** [criar_matriz_interacao]: the order of the records *)






(** ** [main]: the result of the chain, in terms of the sales table *)

Section PontaAPonta.
Variable argsort_kernel : Series Q -> Series Q.
Variable iter_set : list key -> list key.
Variable iter_diff : list key -> list key.
Hypothesis kernel_perm : forall s, Permutation s (argsort_kernel s).
Hypothesis iter_set_perm : forall l, Permutation l (iter_set l).
Hypothesis iter_diff_perm : forall l, Permutation l (iter_diff l).

(** X18: the result of the chain of [main], read on the sales table (all
    quantities positive).  Every neighbour is a customer of the table; for
    a non-negative [n_vizinhos] there are
    [min(n_vizinhos, number of customers - 1)] of them; and a product is
    recommended, once, exactly when the table has no record of it for the
    target and has one for some neighbour. *)
Theorem main_core_on_sales_table :
  forall df_vendas cliente_id n_vizinhos pc similares recs,
    main_core argsort_kernel iter_set iter_diff df_vendas cliente_id n_vizinhos
      = Returns (pc, similares, recs) ->
    (forall v, In v df_vendas -> (0 < TotalQtd v)%Q) ->
    (forall v s, In (v, s) similares ->
       exists x, In x df_vendas /\ CustomerKey x = v) /\
    (0 <= n_vizinhos ->
     length similares =
     Nat.min (Z.to_nat n_vizinhos)
             (length (sorted_unique (map CustomerKey df_vendas)) - 1)) /\
    NoDup (map fst recs) /\
    (forall p,
       In p (map fst recs) <->
       (forall x, In x df_vendas -> CustomerKey x = cliente_id -> ProductKey x <> p) /\
       exists v s x,
         In (v, s) similares /\ In x df_vendas /\
         CustomerKey x = v /\ ProductKey x = p).
Proof.
  intros df c n pc similares recs H Hpos.
  unfold main_core, criar_matriz_interacao in H. cbn [bind] in H.
  destruct (calcular_similaridades f64 (astype float_of_Q (pivot_table df 0%Q)))
    as [sim|e] eqn:Es; cbn [bind] in H; [|discriminate].
  destruct (calcular_similaridades_frame f64 Q_of_float _ _ Es) as [_ [Hi _]].
  simpl in Hi.
  assert (Hnn : forall v, In v df -> (0 <= TotalQtd v)%Q).
  { intros v Hv. apply Qlt_le_weak. now apply Hpos. }
  assert (Hcomp : forall v p,
            comprou (pivot_table df 0%Q) v p = true <->
            exists x, In x df /\ CustomerKey x = v /\ ProductKey x = p).
  { intros v p. rewrite (pivot_table_comprou df v p Hnn). split.
    - intros [x [Hx [H1 [H2 _]]]]. now exists x.
    - intros [x [Hx [H1 H2]]]. exists x. repeat split; try assumption.
      now apply Hpos. }
  pose proof (obter_recomendacoes_coluna _ _ _ _ _ _ _ _ _ _ H) as Hsim.
  split; [|split; [|split]].
  - intros v s Hin. rewrite Hsim in Hin.
    apply (similares_in_index argsort_kernel kernel_perm) in Hin.
    simpl in Hin. rewrite Hi in Hin.
    rewrite sorted_unique_In, in_map_iff in Hin.
    destruct Hin as [x [Hx Hin]]. now exists x.
  - intro Hn. rewrite Hsim, py_slice_length by assumption.
    rewrite <- (Permutation_length (sort_values_desc_perm argsort_kernel kernel_perm _)).
    rewrite length_map. simpl. now rewrite Hi.
  - exact (proj1 (obter_recomendacoes_entries argsort_kernel iter_set iter_diff
                    iter_set_perm iter_diff_perm _ _ _ _ _ _ _ H)).
  - intro p.
    rewrite (obter_recomendacoes_keys argsort_kernel iter_set iter_diff
               iter_set_perm iter_diff_perm _ _ _ _ _ _ _ H p).
    split.
    + intros [Hc [v [s [Hin Hv]]]]. split.
      * intros x Hx Hcx Hpx.
        assert (Ht : comprou (pivot_table df 0%Q) c p = true)
          by (apply Hcomp; now exists x).
        congruence.
      * apply Hcomp in Hv. destruct Hv as [x [Hx [H1 H2]]]. now exists v, s, x.
    + intros [Hc [v [s [x [Hin [Hx [H1 H2]]]]]]]. split.
      * destruct (comprou (pivot_table df 0%Q) c p) eqn:Ec; [|reflexivity].
        apply Hcomp in Ec. destruct Ec as [y [Hy [Hy1 Hy2]]].
        elim (Hc y Hy Hy1 Hy2).
      * exists v, s. split; [assumption|]. apply Hcomp. now exists x.
Qed.

End PontaAPonta.

Lemma main_core_on_sales_table_witness :
  In 5 (map fst [(5, {| score := score_empate; vizinhos := [2] |});
                 (3, {| score := score_empate; vizinhos := [3] |})]) <->
  (forall x, In x vendas_empate -> CustomerKey x = 1 -> ProductKey x <> 5) /\
  exists v s x,
    In (v, s) [(2, score_empate); (3, score_empate)] /\ In x vendas_empate /\
    CustomerKey x = v /\ ProductKey x = 5.
Proof.
  refine (proj2 (proj2 (proj2
            (main_core_on_sales_table
               insertion_kernel (fun l => l) (fun l => l)
               insertion_kernel_perm same_order_perm same_order_perm
               vendas_empate 1 5 _ _ _ main_core_ref_empate _))) 5).
  intros v Hv. simpl in Hv.
  repeat (destruct Hv as [<-|Hv]; [vm_compute; reflexivity|]). contradiction.
Defined.
